(** * pyknot2.visualise: a shallow embedding and its properties

    The module [pyknot2/visualise.py] draws space curves through one of
    three plotting toolkits (mayavi, matplotlib, vispy).  Everything it
    does is a call into a toolkit, so the embedding records those calls
    as a trace of events and threads Python exceptions through an
    error monad:

      - a computation is a pair of the events it emitted and either the
        exception that ended it or its return value;
      - what the surrounding process provides (which modules import,
        whether matplotlib can build a figure and 3D axes, the handles
        [plt.subplots] hands out) is an explicit environment [Env];
      - Python numbers are exact rationals [Q]: the properties below
        never depend on binary64 rounding, and equality of computed
        numbers is [Qeq], as [==] on Python numbers is numeric.

    Functions keep the names they have in the source. *)

From Stdlib Require Import ZArith QArith Qround Qminmax Qabs Bool List String.
From Stdlib Require Import Lia Lqa Permutation SetoidList SetoidPermutation.
Import ListNotations.

Set Implicit Arguments.
Set Warnings "-register-all".

(** ** Python values that cross the module's boundary *)

Inductive pyval : Type :=
| VNone
| VBool (b : bool)
| VNum (q : Q)
| VStr (s : string)
| VTuple (items : list pyval)
| VArray (a : list Q).

(** A [**kwargs] dictionary, in insertion order. *)
Definition kwargs := list (string * pyval).

(** An n x 3 array: one row per point. *)
Definition point3 := (Q * Q * Q)%type.
Definition ndarray3 := list point3.

Definition col0 (points : ndarray3) : list Q := map (fun p => fst (fst p)) points.
Definition col1 (points : ndarray3) : list Q := map (fun p => snd (fst p)) points.
Definition col2 (points : ndarray3) : list Q := map (fun p => snd p) points.

Definition colour := (Q * Q * Q)%type.

Definition colour_val (c : colour) : pyval :=
  let '(r, g, b) := c in VTuple [VNum r; VNum g; VNum b].

(** ** Exceptions *)

Inductive exn_class := ImportError | ValueError | TypeError | IndexError | Exception | OtherError.

Record exn := mk_exn { exn_cls : exn_class; exn_msg : string }.

Definition exn_class_eqb (a b : exn_class) : bool :=
  match a, b with
  | ImportError, ImportError | ValueError, ValueError | TypeError, TypeError
  | IndexError, IndexError | Exception, Exception | OtherError, OtherError => true
  | _, _ => false
  end.

(** [except (C1, C2, ...)]: does the clause catch [e]? *)
Definition catches (classes : list exn_class) (e : exn) : bool :=
  existsb (exn_class_eqb (exn_cls e)) classes.

(** ** Toolkit calls, as observable events *)

Definition handle := nat.

Inductive event : Type :=
(* instrumentation: entry into [plot_line] with its bound arguments *)
| EvPlotLine (points : ndarray3) (mode : pyval) (clf : bool) (kw : kwargs)
(* [import m] / [from m import ...] *)
| EvImport (module : string)
(* matplotlib, 3D *)
| EvPltFigure
| EvAddSubplot3d
| EvGca3d
| EvAxPlot3d (xs ys zs : list Q)
| EvFigShow
(* matplotlib, 2D *)
| EvPltSubplots
| EvAxPlot (ax : handle) (xs ys : list Q) (fmt : string) (kw : kwargs)
| EvSetXticks (ax : handle)
| EvSetYticks (ax : handle)
| EvSetXlim (ax : handle) (lo hi : Q)
| EvSetYlim (ax : handle) (lo hi : Q)
| EvFigShow2d (fig : handle)
(* mayavi *)
| EvMayClf
| EvMayPlot3d (xs ys zs : list Q) (mus : pyval) (kw : kwargs)
(* vispy *)
| EvSceneCanvas
| EvAddView
| EvTube (points : ndarray3) (colours : list colour)
| EvViewAdd
| EvSetCamera (distance : Q)
| EvSetTransform
| EvTranslate (v : Q * Q * Q)
| EvCanvasShow.

Definition trace := list event.

(** ** The trace-and-exception monad *)

Definition M (A : Type) : Type := (trace * (exn + A))%type.

Definition ret {A} (a : A) : M A := ([], inr a).

Definition bind {A B} (m : M A) (k : A -> M B) : M B :=
  match m with
  | (t, inl e) => (t, inl e)
  | (t, inr a) => let '(t', r) := k a in (t ++ t', r)
  end.

Definition raise {A} (e : exn) : M A := ([], inl e).

Definition emit (ev : event) : M unit := ([ev], inr tt).

(** A pure step that may raise. *)
Definition lift {A} (r : exn + A) : M A := ([], r).

Declare Scope py_scope.
Delimit Scope py_scope with py.
Notation "x <- c ;; k" := (bind c (fun x => k))
  (at level 61, c at next level, right associativity) : py_scope.
Notation "c ;;; k" := (bind c (fun _ => k))
  (at level 61, right associativity) : py_scope.
Local Open Scope py_scope.

(** [try: body / except classes: handler].  What the body emitted before
    it raised stays in the trace. *)
Definition try_except {A} (body : M A) (classes : list exn_class) (handler : M A) : M A :=
  match body with
  | (t, inl e) =>
      if catches classes e then let '(t', r) := handler in (t ++ t', r)
      else (t, inl e)
  | (t, inr a) => (t, inr a)
  end.

(** [for x in xs: body x] *)
Fixpoint for_ {A} (xs : list A) (body : A -> M unit) : M unit :=
  match xs with
  | [] => ret tt
  | x :: xs' => body x ;;; for_ xs' body
  end.

Definition trace_of {A} (m : M A) : trace := fst m.
Definition result_of {A} (m : M A) : exn + A := snd m.

(** ** The environment *)

Record Env := {
  (* does [import m] succeed?  When it does not, ImportError is raised *)
  importable : string -> bool;
  (* [plt.figure()]: [None] when it returns, [Some e] when it raises [e] *)
  plt_figure : option exn;
  (* [fig.add_subplot(111, projection='3d')] *)
  add_subplot_3d : option exn;
  (* [fig.gca(projection='3d')] *)
  gca_3d : option exn;
  (* the (fig, ax) handles [plt.subplots()] returns *)
  plt_subplots : handle * handle
}.

Definition import_ (env : Env) (m : string) : M unit :=
  emit (EvImport m) ;;;
  if importable env m then ret tt
  else raise (mk_exn ImportError ("No module named " ++ m)).

(** A toolkit call whose outcome the environment decides. *)
Definition extcall (ev : event) (outcome : option exn) : M unit :=
  emit ev ;;;
  match outcome with
  | None => ret tt
  | Some e => raise e
  end.

(** ** numpy and colorsys *)

Definition Qtrunc (x : Q) : Z := Z.quot (Qnum x) (Zpos (Qden x)).

Definition Qofnat (n : nat) : Q := inject_Z (Z.of_nat n).

(** Replace the last element of a list, [y[-1] = v]. *)
Fixpoint set_last (l : list Q) (v : Q) : list Q :=
  match l with
  | [] => []
  | [_] => [v]
  | x :: l' => x :: set_last l' v
  end.

(** [numpy.linspace(start, stop, num)] with the default [endpoint=True]. *)
Definition linspace (start stop : Q) (num : nat) : list Q :=
  let div := (num - 1)%nat in
  let delta := stop - start in
  let y := map Qofnat (seq 0 num) in
  let y :=
    if (0 <? div)%nat then
      let step := delta / Qofnat div in
      if Qeq_bool step 0 then map (fun v => v / Qofnat div * delta) y
      else map (fun v => v * step) y
    else map (fun v => v * delta) y in
  let y := map (fun v => v + start) y in
  if (1 <? num)%nat then set_last y stop else y.

(** [colorsys.hsv_to_rgb].  The residue [i % 6] is always one of 0..5
    (lemma [sector_range]), so the last branch is the source's [i == 5]
    and the fall-through after it is never reached. *)
Definition hsv_to_rgb (h s v : Q) : colour :=
  if Qeq_bool s 0 then (v, v, v)
  else
    let i := Qtrunc (h * 6) in
    let f := h * 6 - inject_Z i in
    let p := v * (1 - s) in
    let q := v * (1 - s * f) in
    let t := v * (1 - s * (1 - f)) in
    match (i mod 6)%Z with
    | 0%Z => (v, t, p)
    | 1%Z => (q, v, p)
    | 2%Z => (p, v, t)
    | 3%Z => (p, q, v)
    | 4%Z => (t, p, v)
    | _ => (v, p, q)
    end.

(** [numpy.min] / [numpy.max] of a one-dimensional array; a zero-size
    array has no minimum and raises ValueError. *)
Definition np_min (a : list Q) : exn + Q :=
  match a with
  | [] => inl (mk_exn ValueError "zero-size array to reduction operation minimum which has no identity")
  | x :: a' => inr (fold_left Qmin a' x)
  end.

Definition np_max (a : list Q) : exn + Q :=
  match a with
  | [] => inl (mk_exn ValueError "zero-size array to reduction operation maximum which has no identity")
  | x :: a' => inr (fold_left Qmax a' x)
  end.

Definition Qsum (a : list Q) : Q := fold_left Qplus a 0.

(** [numpy.average] of a one-dimensional array. *)
Definition np_average (a : list Q) : Q := Qsum a / Qofnat (length a).

(** ** Keyword arguments *)

Fixpoint kw_get (k : string) (kw : kwargs) : option pyval :=
  match kw with
  | [] => None
  | (k', v) :: kw' => if String.eqb k k' then Some v else kw_get k kw'
  end.

Definition kw_has (k : string) (kw : kwargs) : bool :=
  match kw_get k kw with Some _ => true | None => false end.

Definition kw_del (k : string) (kw : kwargs) : kwargs :=
  filter (fun kv => negb (String.eqb k (fst kv))) kw.

(** The value bound to a parameter with a default. *)
Definition kw_default (k : string) (d : pyval) (kw : kwargs) : pyval :=
  match kw_get k kw with Some v => v | None => d end.

Definition is_str (v : pyval) (s : string) : bool :=
  match v with
  | VStr s' => String.eqb s' s
  | _ => false
  end.

(** ** The three adapters *)

Section Adapters.

Variable env : Env.

(** [plot_line_mayavi(points, clf=True, tube_radius=1., colormap='hsv',
    mus=None, **kwargs)] *)
Definition plot_line_mayavi (points : ndarray3) (clf : bool) (kw : kwargs) : M unit :=
  let tube_radius := kw_default "tube_radius" (VNum 1) kw in
  let colormap := kw_default "colormap" (VStr "hsv") kw in
  let mus := kw_default "mus" VNone kw in
  let kw := kw_del "mus" (kw_del "colormap" (kw_del "tube_radius" kw)) in
  import_ env "mayavi.mlab" ;;;
  (if clf then emit EvMayClf else ret tt) ;;;
  let mus :=
    match mus with
    | VNone => VArray (linspace 0 1 (length points))
    | _ => mus
    end in
  emit (EvMayPlot3d (col0 points) (col1 points) (col2 points) mus
          (("colormap", colormap) :: ("tube_radius", tube_radius) :: kw)%string).

(** [plot_line_matplotlib(points, **kwargs)] *)
Definition plot_line_matplotlib (points : ndarray3) (kw : kwargs) : M unit :=
  import_ env "matplotlib.pyplot" ;;;
  import_ env "mpl_toolkits.mplot3d" ;;;
  extcall EvPltFigure (plt_figure env) ;;;
  extcall EvGca3d (gca_3d env) ;;;
  emit (EvAxPlot3d (col0 points) (col1 points) (col2 points)) ;;;
  emit EvFigShow.

(** [plot_line_vispy(points, **kwargs)]; the canvas it returns carries
    no information here. *)
Definition plot_line_vispy (points : ndarray3) (kw : kwargs) : M unit :=
  import_ env "vispy" ;;;
  import_ env "vispy.app" ;;;
  import_ env "vispy.scene" ;;;
  emit EvSceneCanvas ;;;
  emit EvAddView ;;;
  let colours := linspace 0 1 (length points) in
  let colours := map (fun c => hsv_to_rgb c 1 1) colours in
  emit (EvTube points colours) ;;;
  emit EvViewAdd ;;;
  mx <- lift (np_max (col0 points)) ;;
  my <- lift (np_max (col1 points)) ;;
  mz <- lift (np_max (col2 points)) ;;
  m <- lift (np_max [mx; my; mz]) ;;
  emit (EvSetCamera ((3 # 2) * m)) ;;;
  emit EvSetTransform ;;;
  emit (EvTranslate (-1 * np_average (col0 points),
                     -1 * np_average (col1 points),
                     -1 * np_average (col2 points))) ;;;
  emit EvCanvasShow.

(** ** plot_line *)

Definition no_backend_message : string :=
  "Couldn't import any of mayavi, vispy, or matplotlib's 3d axes.".

(** The three probes of ['auto'] mode (the bodies of the [try] blocks). *)
Definition probe_mayavi : M pyval :=
  import_ env "mayavi.mlab" ;;;
  ret (VStr "mayavi").

Definition probe_matplotlib : M pyval :=
  import_ env "matplotlib.pyplot" ;;;
  import_ env "mpl_toolkits.mplot3d" ;;;
  extcall EvPltFigure (plt_figure env) ;;;
  extcall EvAddSubplot3d (add_subplot_3d env) ;;;
  ret (VStr "matplotlib").

Definition probe_vispy : M pyval :=
  import_ env "vispy" ;;;
  ret (VStr "vispy").

(** Lines 33-56: settle the mode. *)
Definition plot_line_resolve (mode : pyval) : M pyval :=
  mode <- (if is_str mode "auto" then
             try_except probe_mayavi [ImportError] (ret mode)
           else ret mode) ;;
  mode <- (if is_str mode "auto" then
             try_except probe_matplotlib [ImportError; ValueError] (ret mode)
           else ret mode) ;;
  mode <- (if is_str mode "auto" then
             try_except probe_vispy [ImportError] (ret mode)
           else ret mode) ;;
  if is_str mode "auto" then raise (mk_exn ImportError no_backend_message)
  else ret mode.

(** Lines 58-65: call the adapter of the settled mode. *)
Definition plot_line_dispatch (mode : pyval) (points : ndarray3) (clf : bool)
    (kw : kwargs) : M unit :=
  if is_str mode "mayavi" then plot_line_mayavi points clf kw
  else if is_str mode "vispy" then
    plot_line_vispy points (("clf", VBool clf) :: kw)%string
  else if is_str mode "matplotlib" then
    plot_line_matplotlib points (("clf", VBool clf) :: kw)%string
  else raise (mk_exn Exception "invalid toolkit/mode").

Definition plot_line (points : ndarray3) (mode : pyval) (clf : bool) (kw : kwargs) : M unit :=
  emit (EvPlotLine points mode clf kw) ;;;
  mode' <- plot_line_resolve mode ;;
  plot_line_dispatch mode' points clf kw.

End Adapters.

(** ** plot_projection *)

(** A row of an n x m array with m >= 2: the two projected coordinates
    and whatever columns follow them. *)
Definition row2 := (Q * Q * list Q)%type.

Definition px (r : row2) : Q := fst (fst r).
Definition py (r : row2) : Q := snd (fst r).

(** Which leg of [crossings is not None and len(crossings)] decides. *)
Inductive guard_path :=
| GuardNone      (* [crossings is not None] is false; [len] is not evaluated *)
| GuardEmpty     (* [crossings] is there and [len(crossings)] is 0 *)
| GuardNonEmpty. (* both conjuncts are true *)

Definition crossings_guard (crossings : option (list (Q * Q))) : guard_path :=
  match crossings with
  | None => GuardNone
  | Some cs => if (0 <? length cs)%nat then GuardNonEmpty else GuardEmpty
  end.

Definition guard_value (g : guard_path) : bool :=
  match g with
  | GuardNonEmpty => true
  | _ => false
  end.

Definition crossing_fmt : string := "ro".

Definition plot_projection (env : Env) (points : list row2)
    (crossings : option (list (Q * Q))) (mark_start : bool)
    (fig_ax : option (handle * handle)) (show : bool) : M (handle * handle) :=
  import_ env "matplotlib.pyplot" ;;;
  fa <- match fig_ax with
        | Some fa => ret fa
        | None => emit EvPltSubplots ;;; ret (plt_subplots env)
        end ;;
  let fig := fst fa in
  let ax := snd fa in
  emit (EvAxPlot ax (map px points) (map py points) "" []) ;;;
  emit (EvSetXticks ax) ;;;
  emit (EvSetYticks ax) ;;;
  xmin <- lift (np_min (map px points)) ;;
  ymin <- lift (np_min (map py points)) ;;
  xmax <- lift (np_max (map px points)) ;;
  ymax <- lift (np_max (map py points)) ;;
  let dx := (xmax - xmin) / 10 in
  let dy := (ymax - ymin) / 10 in
  emit (EvSetXlim ax (xmin - dx) (xmax + dx)) ;;;
  emit (EvSetYlim ax (ymin - dy) (ymax + dy)) ;;;
  (if mark_start then
     match points with
     | p :: _ =>
         emit (EvAxPlot ax [px p] [py p] ""
                 [("color", VStr "blue"); ("marker", VStr "o")]%string)
     | [] => raise (mk_exn IndexError "index 0 is out of bounds for axis 0 with size 0")
     end
   else ret tt) ;;;
  (if guard_value (crossings_guard crossings) then
     let cs := match crossings with Some cs => cs | None => [] end in
     emit (EvAxPlot ax (map fst cs) (map snd cs) crossing_fmt
             [("alpha", VNum (1 # 2))]%string)
   else ret tt) ;;;
  (if show then emit (EvFigShow2d fig) else ret tt) ;;;
  ret (fig, ax).

(** ** random.shuffle *)

(** [x[i] = v]; the index is in range wherever [shuffle] uses it. *)
Fixpoint update {A} (i : nat) (v : A) (l : list A) : list A :=
  match l, i with
  | [], _ => []
  | _ :: l', O => v :: l'
  | x :: l', S i' => x :: update i' v l'
  end.

(** [x[i], x[j] = x[j], x[i]] *)
Definition swap {A} (i j : nat) (l : list A) : list A :=
  match nth_error l i, nth_error l j with
  | Some a, Some b => update j a (update i b l)
  | _, _ => l
  end.

(** The loop of [random.shuffle]: [for i in reversed(range(1, len(x)))],
    with [j = randbelow(i + 1)].  [randbelow n] is the generator's answer
    when asked for a number below [n]; each bound is asked for once, and
    the answer is reduced so that it is below the bound. *)
Fixpoint shuffle_from {A} (randbelow : nat -> nat) (i : nat) (l : list A) : list A :=
  match i with
  | O => l
  | S i' => shuffle_from randbelow i' (swap i (randbelow (i + 1) mod (i + 1))%nat l)
  end.

Definition shuffle {A} (randbelow : nat -> nat) (l : list A) : list A :=
  shuffle_from randbelow (length l - 1) l.

(** ** plot_cell *)

(** The colours of a scene of [k] lines (lines 160-162 of the source). *)
Definition plot_cell_hues (k : nat) : list Q := removelast (linspace 0 1 (k + 1)).

Definition plot_cell_colours (randbelow : nat -> nat) (k : nat) : list colour :=
  let hues := plot_cell_hues k in
  let colours := map (fun hue => hsv_to_rgb hue 1 1) hues in
  shuffle randbelow colours.

(** The call [plot_line(segment, clf=False, color=colour, **kwargs)]: a
    key of [kwargs] that repeats an argument already given is a
    TypeError, a [mode] key binds [plot_line]'s parameter, and the rest
    travels on behind [color]. *)
Definition plot_cell_call (env : Env) (segment : ndarray3) (c : colour) (kw : kwargs) : M unit :=
  if (kw_has "clf" kw || kw_has "color" kw || kw_has "points" kw)%bool then
    raise (mk_exn TypeError "plot_line() got multiple values for keyword argument")
  else
    plot_line env segment (kw_default "mode" (VStr "auto") kw) false
      (("color"%string, colour_val c) :: kw_del "mode" kw).

(** Modelled from the spec: [ensure_shape_tuple] of [pyknot2.utils],
    which is not among the sources.  A single scalar is a cube side
    length applied to all three axes. *)
Definition ensure_shape_tuple (s : pyval) : pyval := VTuple [s; s; s].

(** [isinstance(v, (float, int))]; [bool] is a subclass of [int]. *)
Definition isinstance_float_int (v : pyval) : bool :=
  match v with
  | VNum _ | VBool _ => true
  | _ => false
  end.

Definition py_len (v : pyval) : exn + nat :=
  match v with
  | VStr s => inr (String.length s)
  | VTuple items => inr (List.length items)
  | VArray a => inr (List.length a)
  | _ => inl (mk_exn TypeError "object has no len()")
  end.

(** [v[i]] for a sequence whose length is known to exceed [i]. *)
Definition py_item (v : pyval) (i : nat) : pyval :=
  match v with
  | VStr s => match String.get i s with
              | Some ch => VStr (String ch EmptyString)
              | None => VNone
              end
  | VTuple items => nth i items VNone
  | VArray a => match nth_error a i with Some q => VNum q | None => VNone end
  | _ => VNone
  end.

(** The body of [if boundary is not None:] (lines 168-171). *)
Definition plot_cell_boundary (boundary : pyval) : exn + pyval :=
  let boundary :=
    if isinstance_float_int boundary then ensure_shape_tuple boundary
    else boundary in
  match py_len boundary with
  | inl e => inl e
  | inr n =>
      if (n =? 3)%nat then
        inr (VTuple [VNum 0; py_item boundary 0; VNum 0; py_item boundary 1;
                     VNum 0; py_item boundary 2])
      else inr boundary
  end.

Definition plot_cell (env : Env) (randbelow : nat -> nat)
    (lines : list (list ndarray3)) (boundary : pyval) (clf : bool)
    (kw : kwargs) : M unit :=
  (* mode = 'mayavi' is assigned and never read *)
  import_ env "mayavi.mlab" ;;;
  emit EvMayClf ;;;
  let colours := plot_cell_colours randbelow (length lines) in
  for_ (combine lines colours)
    (fun lc => for_ (fst lc) (fun segment => plot_cell_call env segment (snd lc) kw)) ;;;
  match boundary with
  | VNone => ret tt
  | _ => _ <- lift (plot_cell_boundary boundary) ;; ret tt
  end.


(** * Vocabulary of the statements *)

Inductive toolkit := Mayavi | Matplotlib | Vispy.

Definition toolkit_eqb (a b : toolkit) : bool :=
  match a, b with
  | Mayavi, Mayavi | Matplotlib, Matplotlib | Vispy, Vispy => true
  | _, _ => false
  end.

Definition module_toolkit (m : string) : option toolkit :=
  if String.prefix "mayavi" m then Some Mayavi
  else if (String.prefix "matplotlib" m || String.prefix "mpl_toolkits" m)%bool then Some Matplotlib
  else if String.prefix "vispy" m then Some Vispy
  else None.

(** The toolkit an event belongs to; [EvPlotLine] is instrumentation
    and belongs to none. *)
Definition event_toolkit (ev : event) : option toolkit :=
  match ev with
  | EvPlotLine _ _ _ _ => None
  | EvImport m => module_toolkit m
  | EvPltFigure | EvAddSubplot3d | EvGca3d | EvAxPlot3d _ _ _ | EvFigShow
  | EvPltSubplots | EvAxPlot _ _ _ _ _ | EvSetXticks _ | EvSetYticks _
  | EvSetXlim _ _ _ | EvSetYlim _ _ _ | EvFigShow2d _ => Some Matplotlib
  | EvMayClf | EvMayPlot3d _ _ _ _ _ => Some Mayavi
  | EvSceneCanvas | EvAddView | EvTube _ _ | EvViewAdd | EvSetCamera _
  | EvSetTransform | EvTranslate _ | EvCanvasShow => Some Vispy
  end.

(** Was anything of toolkit [tk] imported or called in [t]? *)
Definition touches (tk : toolkit) (t : trace) : bool :=
  existsb (fun ev => match event_toolkit ev with
                     | Some tk' => toolkit_eqb tk tk'
                     | None => false
                     end) t.

(** The events that put a curve on the screen. *)
Definition is_draw (ev : event) : bool :=
  match ev with
  | EvMayPlot3d _ _ _ _ _ | EvAxPlot3d _ _ _ | EvTube _ _ | EvAxPlot _ _ _ _ _ => true
  | _ => false
  end.

Definition is_clear (ev : event) : bool :=
  match ev with
  | EvMayClf => true
  | _ => false
  end.

(** [m], run after the events [t]. *)
Definition after {A} (t : trace) (m : M A) : M A := (t ++ fst m, snd m).

Definition mentions (needle hay : string) : bool :=
  match String.index 0 needle hay with
  | Some _ => true
  | None => false
  end.

(** The error of line 55, which the specification calls
    NoBackendAvailable. *)
Definition NoBackendAvailable : exn := mk_exn ImportError no_backend_message.

(** ** Concrete environments and inputs *)

Definition env_with (modules : list string) (fig sub gca : option exn) : Env :=
  {| importable := fun m => existsb (String.eqb m) modules;
     plt_figure := fig;
     add_subplot_3d := sub;
     gca_3d := gca;
     plt_subplots := (1%nat, 2%nat) |}.

Definition matplotlib_modules : list string :=
  ["matplotlib.pyplot"; "mpl_toolkits.mplot3d"]%string.

Definition vispy_modules : list string :=
  ["vispy"; "vispy.app"; "vispy.scene"]%string.

(** Everything is installed. *)
Definition env_all : Env :=
  env_with ("mayavi.mlab"%string :: matplotlib_modules ++ vispy_modules) None None None.

(** No mayavi. *)
Definition env_no_mayavi : Env :=
  env_with (matplotlib_modules ++ vispy_modules) None None None.

(** No mayavi, and a matplotlib that imports but has no 3D projection. *)
Definition env_no_3d : Env :=
  env_with (matplotlib_modules ++ vispy_modules) None
    (Some (mk_exn ValueError "Unknown projection '3d'")) None.

(** No mayavi, no vispy, and a matplotlib without 3D projection. *)
Definition env_no_backend : Env :=
  env_with matplotlib_modules None
    (Some (mk_exn ValueError "Unknown projection '3d'")) None.

(** A square wave of four points. *)
Definition square_wave : ndarray3 := [(0, 0, 0); (1, 0, 0); (1, 1, 0); (2, 1, 0)].

(** How many events of [t] satisfy [p]. *)
Definition count (p : event -> bool) (t : trace) : nat := length (filter p t).

(** What a call of [plot_line] was given: the points, the mode, the
    [clf] flag and the value bound to [color]. *)
Record line_call := {
  call_points : ndarray3;
  call_mode : pyval;
  call_clf : bool;
  call_color : option pyval
}.

Definition plot_line_calls (t : trace) : list line_call :=
  flat_map (fun ev =>
    match ev with
    | EvPlotLine points mode clf kw =>
        [{| call_points := points; call_mode := mode; call_clf := clf;
            call_color := kw_get "color" kw |}]
    | _ => []
    end) t.

(** What mayavi was asked to draw: the three coordinate columns and
    the value bound to [color]. *)
Definition mayavi_draws (t : trace) : list (list Q * list Q * list Q * option pyval) :=
  flat_map (fun ev =>
    match ev with
    | EvMayPlot3d xs ys zs _ kw => [(xs, ys, zs, kw_get "color" kw)]
    | _ => []
    end) t.

(** "Only the first call asks for the scene to be cleared." *)
Definition only_first_clears (calls : list line_call) : Prop :=
  match calls with
  | [] => False
  | c :: rest => call_clf c = true /\ Forall (fun c' => call_clf c' = false) rest
  end.

(** Keyword arguments that leave [plot_cell]'s calls of [plot_line]
    alone: no [mode], and nothing that repeats an argument. *)
Definition plain_kwargs (kw : kwargs) : bool :=
  negb (kw_has "mode" kw || kw_has "clf" kw || kw_has "color" kw || kw_has "points" kw).

(** Three curves of two segments each. *)
Definition segment_at (x : Z) : ndarray3 :=
  [(inject_Z x, 0, 0); (inject_Z x, 1, 0); (inject_Z x, 1, 1)].

Definition three_by_two : list (list ndarray3) :=
  [[segment_at 1; segment_at 2]; [segment_at 3; segment_at 4];
   [segment_at 5; segment_at 6]].

(** A generator that always answers its largest admissible value, and
    one that always answers 0. *)
Definition rand_top (n : nat) : nat := (n - 1)%nat.
Definition rand_zero (n : nat) : nat := 0%nat.

(** Equality of colours, component by component, as [==] on Python
    tuples of numbers decides it. *)
Definition colour_eq (c1 c2 : colour) : Prop :=
  let '(r1, g1, b1) := c1 in
  let '(r2, g2, b2) := c2 in
  r1 == r2 /\ g1 == g2 /\ b1 == b2.

Definition colour_eqb (c1 c2 : colour) : bool :=
  let '(r1, g1, b1) := c1 in
  let '(r2, g2, b2) := c2 in
  (Qeq_bool r1 r2 && Qeq_bool g1 g2 && Qeq_bool b1 b2)%bool.

(** The [i]-th of the hues [linspace] computes for a scene of [k]
    lines: [i * step + start] with [step = (stop - start) / k]. *)
Definition hue_at (k i : nat) : Q := Qofnat i * ((1 - 0) / Qofnat k) + 0.

(** The fully saturated, full-value colour at fraction [f] of sector
    [i] of the hue circle. *)
Definition sector_colour (i : Z) (f : Q) : colour :=
  match i with
  | 0%Z => (1, f, 0)
  | 1%Z => (1 - f, 1, 0)
  | 2%Z => (0, 1, f)
  | 3%Z => (0, 1 - f, 1)
  | 4%Z => (f, 0, 1)
  | _ => (1, 0, 1 - f)
  end.

(** [m] is the least (greatest) number of [a]. *)
Definition is_min (m : Q) (a : list Q) : Prop := In m a /\ Forall (fun x => m <= x) a.
Definition is_max (m : Q) (a : list Q) : Prop := In m a /\ Forall (fun x => x <= m) a.

(** The axis limits a trace sets. *)
Definition xlims (t : trace) : list (Q * Q) :=
  flat_map (fun ev => match ev with EvSetXlim _ lo hi => [(lo, hi)] | _ => [] end) t.

Definition ylims (t : trace) : list (Q * Q) :=
  flat_map (fun ev => match ev with EvSetYlim _ lo hi => [(lo, hi)] | _ => [] end) t.


(** All coordinate values of a point set. *)
Definition coords (points : ndarray3) : list Q :=
  flat_map (fun p => [fst (fst p); snd (fst p); snd p]) points.

(** The largest absolute coordinate value. *)
Definition max_abs_coord (points : ndarray3) : Q :=
  fold_left Qmax (map Qabs (coords points)) 0.

(** The distances the camera was set to, and the translations applied. *)
Definition camera_distances (t : trace) : list Q :=
  flat_map (fun ev => match ev with EvSetCamera d => [d] | _ => [] end) t.

(** A curve with all its coordinates negative. *)
Definition negative_octant : ndarray3 := [(-1, -2, -3); (-4, -5, -6)]%Q.

(** A projection whose x-range is [0, 10]. *)
Definition ten_wide : list row2 := [(3, 1, []); (0, 1, []); (10, 1, [7])].

(** ** Further vocabulary *)

Definition is_call (ev : event) : bool :=
  match ev with
  | EvPlotLine _ _ _ _ => true
  | _ => false
  end.

Definition is_figure (ev : event) : bool :=
  match ev with
  | EvPltFigure => true
  | _ => false
  end.

Definition is_show (ev : event) : bool :=
  match ev with
  | EvFigShow | EvFigShow2d _ | EvCanvasShow => true
  | _ => false
  end.

Definition is_subplots (ev : event) : bool :=
  match ev with
  | EvPltSubplots => true
  | _ => false
  end.

(** The axes a 2D call was made on. *)
Definition event_ax (ev : event) : option handle :=
  match ev with
  | EvAxPlot ax _ _ _ _ | EvSetXticks ax | EvSetYticks ax
  | EvSetXlim ax _ _ | EvSetYlim ax _ _ => Some ax
  | _ => None
  end.

(** Every call on axes in [t] is a call on [ax]. *)
Definition on_axes (ax : handle) (t : trace) : bool :=
  forallb (fun ev => match event_ax ev with
                     | Some a => Nat.eqb a ax
                     | None => true
                     end) t.

(** The scalars mayavi was given along the curve. *)
Definition mayavi_mus (t : trace) : list pyval :=
  flat_map (fun ev => match ev with EvMayPlot3d _ _ _ mus _ => [mus] | _ => [] end) t.

(** The per-point colours vispy's tubes were built with. *)
Definition tube_colours (t : trace) : list (list colour) :=
  flat_map (fun ev => match ev with EvTube _ cs => [cs] | _ => [] end) t.

(** A colour of full saturation and value: components in the unit
    interval, one of them 1 and one of them 0. *)
Definition saturated (c : colour) : Prop :=
  let '(r, g, b) := c in
  (0 <= r /\ r <= 1) /\ (0 <= g /\ g <= 1) /\ (0 <= b /\ b <= 1)
  /\ (r == 1 \/ g == 1 \/ b == 1)
  /\ (r == 0 \/ g == 0 \/ b == 0).

Definition red : colour := (1, 0, 0).

(** Matplotlib imports, but [plt.figure()] fails for want of a display,
    with an exception that is neither ImportError nor ValueError. *)
Definition env_no_display : Env :=
  env_with (matplotlib_modules ++ vispy_modules)
    (Some (mk_exn OtherError "no display name and no $DISPLAY environment variable"))
    None None.

(** What [plot_cell] hands to [plot_line] for segment [s] of a curve of
    colour [c]. *)
Definition cell_call (s : ndarray3) (c : colour) : line_call :=
  {| call_points := s; call_mode := VStr "auto"; call_clf := false;
     call_color := Some (colour_val c) |}.

(** The four steps of matplotlib's probe, in the order lines 41-44
    take them. *)
Definition matplotlib_probe_steps : trace :=
  [EvImport "matplotlib.pyplot"; EvImport "mpl_toolkits.mplot3d";
   EvPltFigure; EvAddSubplot3d].

(** Matplotlib's probe fails at its [n]-th step with an exception that
    line 46 catches: an import that fails, or an ImportError or
    ValueError out of [plt.figure()] or [fig.add_subplot]. *)
Inductive matplotlib_probe_fails (env : Env) : nat -> Prop :=
| fails_pyplot :
    importable env "matplotlib.pyplot" = false ->
    matplotlib_probe_fails env 1
| fails_mplot3d :
    importable env "matplotlib.pyplot" = true ->
    importable env "mpl_toolkits.mplot3d" = false ->
    matplotlib_probe_fails env 2
| fails_figure (e : exn) :
    importable env "matplotlib.pyplot" = true ->
    importable env "mpl_toolkits.mplot3d" = true ->
    plt_figure env = Some e ->
    exn_cls e = ImportError \/ exn_cls e = ValueError ->
    matplotlib_probe_fails env 3
| fails_subplot (e : exn) :
    importable env "matplotlib.pyplot" = true ->
    importable env "mpl_toolkits.mplot3d" = true ->
    plt_figure env = None ->
    add_subplot_3d env = Some e ->
    exn_cls e = ImportError \/ exn_cls e = ValueError ->
    matplotlib_probe_fails env 4.


(** * Properties *)

(** ** The monad *)

Lemma bind_emit {A} (ev : event) (k : M A) :
  (emit ev ;;; k) = after [ev] k.
Proof. unfold bind, emit, after. destruct k as [t r]. reflexivity. Qed.

Lemma bind_ret {A B} (a : A) (k : A -> M B) : (x <- ret a ;; k x) = k a.
Proof. unfold bind, ret. destruct (k a) as [t r]. reflexivity. Qed.

Lemma bind_lift {A B} (a : A) (k : A -> M B) : (x <- lift (inr a) ;; k x) = k a.
Proof. apply bind_ret. Qed.

Lemma bind_value {A B} (t : trace) (a : A) (k : A -> M B) :
  (x <- (t, inr a) ;; k x) = after t (k a).
Proof. unfold bind, after. destruct (k a) as [tk r]. reflexivity. Qed.

Lemma bind_after {A B} (t : trace) (m : M A) (k : A -> M B) :
  (x <- after t m ;; k x) = after t (x <- m ;; k x).
Proof.
  unfold bind, after. destruct m as [tm [e | a]]; simpl.
  - reflexivity.
  - destruct (k a) as [tk r]. simpl. now rewrite app_assoc.
Qed.

Lemma after_after {A} (t1 t2 : trace) (m : M A) :
  after t1 (after t2 m) = after (t1 ++ t2) m.
Proof. unfold after. simpl. now rewrite app_assoc. Qed.

Lemma trace_of_after {A} (t : trace) (m : M A) :
  trace_of (after t m) = t ++ trace_of m.
Proof. reflexivity. Qed.

Lemma result_of_after {A} (t : trace) (m : M A) :
  result_of (after t m) = result_of m.
Proof. reflexivity. Qed.

Lemma after_nil {A} (m : M A) : after [] m = m.
Proof. destruct m. reflexivity. Qed.

Lemma import_ok (env : Env) (m : string) :
  importable env m = true -> import_ env m = ([EvImport m], inr tt).
Proof. intros H. unfold import_. now rewrite H. Qed.

Lemma touches_app (tk : toolkit) (t1 t2 : trace) :
  touches tk (t1 ++ t2) = (touches tk t1 || touches tk t2)%bool.
Proof. apply existsb_app. Qed.

(** ** Mode resolution *)

Section Resolution.

Variable env : Env.

Lemma probe_mayavi_run :
  probe_mayavi env =
  if importable env "mayavi.mlab" then ([EvImport "mayavi.mlab"], inr (VStr "mayavi"))
  else ([EvImport "mayavi.mlab"], inl (mk_exn ImportError "No module named mayavi.mlab")).
Proof.
  unfold probe_mayavi, import_. rewrite bind_emit.
  destruct (importable env "mayavi.mlab"); reflexivity.
Qed.

Lemma probe_vispy_run :
  probe_vispy env =
  if importable env "vispy" then ([EvImport "vispy"], inr (VStr "vispy"))
  else ([EvImport "vispy"], inl (mk_exn ImportError "No module named vispy")).
Proof.
  unfold probe_vispy, import_. rewrite bind_emit.
  destruct (importable env "vispy"); reflexivity.
Qed.

(** The probe of matplotlib can only return the mode ['matplotlib']. *)
Lemma probe_matplotlib_value (v : pyval) :
  result_of (probe_matplotlib env) = inr v -> v = VStr "matplotlib".
Proof.
  unfold probe_matplotlib, import_, extcall, result_of.
  destruct (importable env "matplotlib.pyplot"); [| discriminate].
  destruct (importable env "mpl_toolkits.mplot3d"); [| discriminate].
  destruct (plt_figure env); [discriminate |].
  destruct (add_subplot_3d env); [discriminate |].
  simpl. congruence.
Qed.

(** What ['auto'] resolves to, by cases on the three probes. *)
Lemma plot_line_resolve_auto :
  plot_line_resolve env (VStr "auto") =
  if importable env "mayavi.mlab" then
    ([EvImport "mayavi.mlab"], inr (VStr "mayavi"))
  else
    after [EvImport "mayavi.mlab"]
      match probe_matplotlib env with
      | (tm, inr v) => (tm, inr v)
      | (tm, inl e) =>
          if catches [ImportError; ValueError] e then
            after tm
              (if importable env "vispy" then ([EvImport "vispy"], inr (VStr "vispy"))
               else ([EvImport "vispy"], inl (mk_exn ImportError no_backend_message)))
          else (tm, inl e)
      end.
Proof.
  unfold plot_line_resolve.
  change (is_str (VStr "auto") "auto") with true. cbv iota.
  rewrite probe_mayavi_run.
  destruct (importable env "mayavi.mlab").
  - reflexivity.
  - unfold try_except at 1.
    change (catches [ImportError] _) with true. cbv iota.
    cbn [bind app ret]. change (is_str (VStr "auto") "auto") with true. cbv iota.
    destruct (probe_matplotlib env) as [tm [e | v]] eqn:Hm.
    + unfold try_except at 1.
      destruct (catches [ImportError; ValueError] e).
      * cbn [ret bind]. rewrite app_nil_r.
        change (is_str (VStr "auto") "auto") with true. cbv iota.
        rewrite probe_vispy_run.
        destruct (importable env "vispy"); cbn; rewrite ?app_nil_r; reflexivity.
      * reflexivity.
    + assert (v = VStr "matplotlib") as ->
        by (apply probe_matplotlib_value; unfold result_of; now rewrite Hm).
      cbn. rewrite ?app_nil_r. reflexivity.
Qed.

End Resolution.

(** ** Each adapter stays within its own toolkit *)

Section AdapterFootprint.

Variable env : Env.

Lemma plot_line_mayavi_footprint (points : ndarray3) (clf : bool) (kw : kwargs) (tk : toolkit) :
  tk <> Mayavi -> touches tk (trace_of (plot_line_mayavi env points clf kw)) = false.
Proof.
  intros Htk. unfold plot_line_mayavi, import_, trace_of.
  destruct (importable env "mayavi.mlab"), clf, tk; try congruence; reflexivity.
Qed.

Lemma plot_line_matplotlib_footprint (points : ndarray3) (kw : kwargs) (tk : toolkit) :
  tk <> Matplotlib -> touches tk (trace_of (plot_line_matplotlib env points kw)) = false.
Proof.
  intros Htk. unfold plot_line_matplotlib, import_, extcall, trace_of.
  destruct (importable env "matplotlib.pyplot"),
    (importable env "mpl_toolkits.mplot3d"),
    (plt_figure env), (gca_3d env), tk; try congruence; reflexivity.
Qed.

Lemma probe_matplotlib_footprint (tk : toolkit) :
  tk <> Matplotlib -> touches tk (trace_of (probe_matplotlib env)) = false.
Proof.
  intros Htk. unfold probe_matplotlib, import_, extcall, trace_of.
  destruct (importable env "matplotlib.pyplot"),
    (importable env "mpl_toolkits.mplot3d"),
    (plt_figure env), (add_subplot_3d env), tk; try congruence; reflexivity.
Qed.

(** A successful probe of matplotlib made all four of its steps. *)
Lemma probe_matplotlib_ok (v : pyval) :
  result_of (probe_matplotlib env) = inr v ->
  probe_matplotlib env =
    ([EvImport "matplotlib.pyplot"; EvImport "mpl_toolkits.mplot3d";
      EvPltFigure; EvAddSubplot3d], inr (VStr "matplotlib")).
Proof.
  unfold probe_matplotlib, import_, extcall, result_of.
  destruct (importable env "matplotlib.pyplot"); [| discriminate].
  destruct (importable env "mpl_toolkits.mplot3d"); [| discriminate].
  destruct (plt_figure env); [discriminate |].
  destruct (add_subplot_3d env); [discriminate |].
  reflexivity.
Qed.

(** The figure and the 3D subplot are steps of the probe: an exception
    there is the probe's result. *)
Lemma probe_matplotlib_subplot_raises (e : exn) :
  importable env "matplotlib.pyplot" = true ->
  importable env "mpl_toolkits.mplot3d" = true ->
  plt_figure env = None ->
  add_subplot_3d env = Some e ->
  probe_matplotlib env =
    ([EvImport "matplotlib.pyplot"; EvImport "mpl_toolkits.mplot3d";
      EvPltFigure; EvAddSubplot3d], inl e).
Proof.
  intros H1 H2 H3 H4. unfold probe_matplotlib, import_, extcall.
  rewrite H1, H2, H3, H4. reflexivity.
Qed.

End AdapterFootprint.

(** ** plot_line in ['auto'] mode *)

(** A caught failure of matplotlib's probe leaves the steps taken up to
    it in the trace. *)
Lemma probe_matplotlib_fails_run (env : Env) (n : nat) :
  matplotlib_probe_fails env n ->
  exists e,
    probe_matplotlib env = (firstn n matplotlib_probe_steps, inl e)
    /\ catches [ImportError; ValueError] e = true.
Proof.
  intros [H1 | H1 H2 | e H1 H2 H3 Hcls | e H1 H2 H3 H4 Hcls];
    unfold probe_matplotlib, import_, extcall;
    rewrite ?H1, ?H2, ?H3, ?H4; eexists; (split; [reflexivity |]);
    try reflexivity;
    unfold catches; destruct Hcls as [-> | ->]; reflexivity.
Qed.

Lemma probe_matplotlib_succeeds_run (env : Env) :
  importable env "matplotlib.pyplot" = true ->
  importable env "mpl_toolkits.mplot3d" = true ->
  plt_figure env = None ->
  add_subplot_3d env = None ->
  probe_matplotlib env = (matplotlib_probe_steps, inr (VStr "matplotlib")).
Proof.
  intros H1 H2 H3 H4. unfold probe_matplotlib, import_, extcall.
  rewrite H1, H2, H3, H4. reflexivity.
Qed.

(** C1.  With [mode='auto'], [plot_line] probes mayavi, then matplotlib,
    then vispy, and the trace shows it step by step.  (1) Mayavi is
    imported first; when that succeeds the mayavi adapter runs and
    neither matplotlib nor vispy is touched.  (2) Otherwise matplotlib is
    probed next, by its two imports, a figure and a 3D subplot; when all
    four succeed the matplotlib adapter runs and vispy is not touched.
    (3) When the probe fails at its [n]-th step by an exception that is
    caught, only then vispy is imported, and when that succeeds the
    vispy adapter runs.  (4) A ValueError from the 3D subplot is such a
    failure: it falls through to vispy exactly as (5) a failed import of
    matplotlib does. *)
Theorem plot_line_auto_priority (env : Env) (points : ndarray3) (clf : bool) (kw : kwargs) :
  let run := plot_line env points (VStr "auto") clf kw in
  let entry := EvPlotLine points (VStr "auto") clf kw in
  let vispy_adapter :=
    plot_line_vispy env points (("clf"%string, VBool clf) :: kw) in
  (importable env "mayavi.mlab" = true ->
     run = after [entry; EvImport "mayavi.mlab"]
             (plot_line_mayavi env points clf kw)
     /\ touches Matplotlib (trace_of run) = false
     /\ touches Vispy (trace_of run) = false)
  /\
  (importable env "mayavi.mlab" = false ->
   importable env "matplotlib.pyplot" = true ->
   importable env "mpl_toolkits.mplot3d" = true ->
   plt_figure env = None ->
   add_subplot_3d env = None ->
     run = after [entry; EvImport "mayavi.mlab";
                  EvImport "matplotlib.pyplot"; EvImport "mpl_toolkits.mplot3d";
                  EvPltFigure; EvAddSubplot3d]
             (plot_line_matplotlib env points (("clf"%string, VBool clf) :: kw))
     /\ touches Vispy (trace_of run) = false)
  /\
  (importable env "mayavi.mlab" = false ->
   forall n, matplotlib_probe_fails env n ->
   importable env "vispy" = true ->
     run = after (entry :: EvImport "mayavi.mlab"
                    :: firstn n matplotlib_probe_steps ++ [EvImport "vispy"])
             vispy_adapter)
  /\
  (importable env "mayavi.mlab" = false ->
   importable env "matplotlib.pyplot" = true ->
   importable env "mpl_toolkits.mplot3d" = true ->
   plt_figure env = None ->
   forall e, add_subplot_3d env = Some e ->
   exn_cls e = ValueError ->
   importable env "vispy" = true ->
     run = after [entry; EvImport "mayavi.mlab";
                  EvImport "matplotlib.pyplot"; EvImport "mpl_toolkits.mplot3d";
                  EvPltFigure; EvAddSubplot3d; EvImport "vispy"]
             vispy_adapter)
  /\
  (importable env "mayavi.mlab" = false ->
   importable env "matplotlib.pyplot" = false ->
   importable env "vispy" = true ->
     run = after [entry; EvImport "mayavi.mlab";
                  EvImport "matplotlib.pyplot"; EvImport "vispy"]
             vispy_adapter).
Proof.
  intros run entry vispy_adapter.
  assert (Hrun : run =
    after [entry] (mode' <- plot_line_resolve env (VStr "auto") ;;
                   plot_line_dispatch env mode' points clf kw)).
  { subst run entry. unfold plot_line. now rewrite bind_emit. }
  rewrite plot_line_resolve_auto in Hrun.
  assert (Hfall : importable env "mayavi.mlab" = false ->
            forall n, matplotlib_probe_fails env n ->
            importable env "vispy" = true ->
            run = after (entry :: EvImport "mayavi.mlab"
                           :: firstn n matplotlib_probe_steps ++ [EvImport "vispy"])
                    vispy_adapter).
  { intros Hmay n Hfail Hvis. rewrite Hmay, Hvis in Hrun.
    destruct (probe_matplotlib_fails_run Hfail) as (e & Hprobe & Hcatch).
    rewrite Hprobe, Hcatch in Hrun.
    rewrite after_after, bind_after, bind_value in Hrun.
    change (plot_line_dispatch env (VStr "vispy") points clf kw)
      with vispy_adapter in Hrun.
    rewrite !after_after in Hrun. rewrite Hrun.
    f_equal; cbn [app]; now rewrite <- ?app_assoc. }
  split; [| split; [| split; [| split]]].
  - intros Hmay. rewrite Hmay in Hrun.
    rewrite bind_value, after_after in Hrun.
    change (plot_line_dispatch env (VStr "mayavi") points clf kw)
      with (plot_line_mayavi env points clf kw) in Hrun.
    split; [exact Hrun |].
    rewrite Hrun, trace_of_after, !touches_app, !plot_line_mayavi_footprint
      by discriminate.
    split; reflexivity.
  - intros Hmay H1 H2 H3 H4. rewrite Hmay in Hrun.
    rewrite (probe_matplotlib_succeeds_run env H1 H2 H3 H4) in Hrun.
    unfold after at 2 in Hrun. cbn [fst snd app matplotlib_probe_steps] in Hrun.
    rewrite bind_value, after_after in Hrun.
    change (plot_line_dispatch env (VStr "matplotlib") points clf kw)
      with (plot_line_matplotlib env points (("clf"%string, VBool clf) :: kw)) in Hrun.
    split; [exact Hrun |].
    rewrite Hrun, trace_of_after, !touches_app, plot_line_matplotlib_footprint
      by discriminate.
    reflexivity.
  - exact Hfall.
  - intros Hmay H1 H2 H3 e H4 Hcls Hvis.
    apply (Hfall Hmay 4%nat); [| exact Hvis].
    apply (fails_subplot env H1 H2 H3 H4). now right.
  - intros Hmay H1 Hvis.
    apply (Hfall Hmay 1%nat); [| exact Hvis].
    now apply fails_pyplot.
Qed.

(** Runs of [plot_line] at concrete environments: mayavi installed;
    mayavi missing, which is the square wave drawn through matplotlib
    with vispy left alone; mayavi missing and a matplotlib without 3D
    projection, which falls through to vispy. *)
Lemma plot_line_auto_priority_witness :
  (plot_line env_all square_wave (VStr "auto") true [] =
     after [EvPlotLine square_wave (VStr "auto") true []; EvImport "mayavi.mlab"]
       (plot_line_mayavi env_all square_wave true [])
   /\ touches Matplotlib
        (trace_of (plot_line env_all square_wave (VStr "auto") true [])) = false
   /\ touches Vispy
        (trace_of (plot_line env_all square_wave (VStr "auto") true [])) = false)
  /\ (plot_line env_no_mayavi square_wave (VStr "auto") true [] =
        ([EvPlotLine square_wave (VStr "auto") true []; EvImport "mayavi.mlab";
          EvImport "matplotlib.pyplot"; EvImport "mpl_toolkits.mplot3d";
          EvPltFigure; EvAddSubplot3d;
          EvImport "matplotlib.pyplot"; EvImport "mpl_toolkits.mplot3d";
          EvPltFigure; EvGca3d;
          EvAxPlot3d (col0 square_wave) (col1 square_wave) (col2 square_wave);
          EvFigShow], inr tt)
      /\ touches Vispy
           (trace_of (plot_line env_no_mayavi square_wave (VStr "auto") true [])) = false)
  /\ plot_line env_no_3d square_wave (VStr "auto") true [] =
     after [EvPlotLine square_wave (VStr "auto") true []; EvImport "mayavi.mlab";
            EvImport "matplotlib.pyplot"; EvImport "mpl_toolkits.mplot3d";
            EvPltFigure; EvAddSubplot3d; EvImport "vispy"]
       (plot_line_vispy env_no_3d square_wave [("clf"%string, VBool true)]).
Proof.
  pose proof (plot_line_auto_priority env_all square_wave true []) as (H1 & _).
  pose proof (plot_line_auto_priority env_no_mayavi square_wave true [])
    as (_ & H2 & _).
  pose proof (plot_line_auto_priority env_no_3d square_wave true [])
    as (_ & _ & _ & H4 & _).
  split; [exact (H1 eq_refl) |]. split.
  - destruct (H2 eq_refl eq_refl eq_refl eq_refl eq_refl) as (Hrun & Hvis).
    split; [| exact Hvis]. rewrite Hrun. reflexivity.
  - exact (H4 eq_refl eq_refl eq_refl eq_refl
             (mk_exn ValueError "Unknown projection '3d'") eq_refl eq_refl eq_refl).
Defined.

Lemma probe_matplotlib_no_draw (env : Env) :
  existsb is_draw (trace_of (probe_matplotlib env)) = false.
Proof.
  unfold probe_matplotlib, import_, extcall, trace_of.
  destruct (importable env "matplotlib.pyplot"),
    (importable env "mpl_toolkits.mplot3d"),
    (plt_figure env), (add_subplot_3d env); reflexivity.
Qed.

(** C4.  With [mode='auto'], when mayavi does not import, matplotlib's
    probe ends in an exception its [except] clause catches, and vispy
    does not import, [plot_line] raises the error of line 55, whose
    message names mayavi, vispy and matplotlib; the trace holds the
    three probes and nothing else, so no adapter ran and nothing was
    drawn. *)
Theorem plot_line_auto_no_backend (env : Env) (points : ndarray3) (clf : bool)
    (kw : kwargs) (e : exn) :
  importable env "mayavi.mlab" = false ->
  result_of (probe_matplotlib env) = inl e ->
  catches [ImportError; ValueError] e = true ->
  importable env "vispy" = false ->
  let run := plot_line env points (VStr "auto") clf kw in
  result_of run = inl NoBackendAvailable
  /\ (mentions "mayavi" (exn_msg NoBackendAvailable) = true
      /\ mentions "matplotlib" (exn_msg NoBackendAvailable) = true
      /\ mentions "vispy" (exn_msg NoBackendAvailable) = true)
  /\ trace_of run =
       EvPlotLine points (VStr "auto") clf kw
         :: trace_of (probe_mayavi env) ++ trace_of (probe_matplotlib env)
         ++ trace_of (probe_vispy env)
  /\ existsb is_draw (trace_of run) = false.
Proof.
  intros Hmay Hmpl Hcatch Hvis run.
  assert (Hrun : run =
    (EvPlotLine points (VStr "auto") clf kw
       :: trace_of (probe_mayavi env) ++ trace_of (probe_matplotlib env)
       ++ trace_of (probe_vispy env), inl NoBackendAvailable)).
  { subst run. unfold plot_line. rewrite bind_emit, plot_line_resolve_auto.
    rewrite probe_mayavi_run, probe_vispy_run, Hmay, Hvis.
    destruct (probe_matplotlib env) as [tm [e' | v]] eqn:Hm;
      unfold result_of in Hmpl; cbn [snd] in Hmpl; [| discriminate].
    injection Hmpl as ->. rewrite Hcatch. reflexivity. }
  rewrite Hrun.
  split; [reflexivity |].
  split; [repeat split; reflexivity |].
  split; [reflexivity |].
  change (existsb is_draw
            (EvPlotLine points (VStr "auto") clf kw
               :: trace_of (probe_mayavi env) ++ trace_of (probe_matplotlib env)
               ++ trace_of (probe_vispy env)) = false).
  cbn [existsb is_draw orb].
  rewrite !existsb_app, probe_matplotlib_no_draw.
  rewrite probe_mayavi_run, probe_vispy_run, Hmay, Hvis. reflexivity.
Qed.

Lemma plot_line_auto_no_backend_witness :
  result_of (plot_line env_no_backend square_wave (VStr "auto") true []) =
    inl NoBackendAvailable
  /\ existsb is_draw
       (trace_of (plot_line env_no_backend square_wave (VStr "auto") true [])) = false.
Proof.
  pose proof (@plot_line_auto_no_backend env_no_backend square_wave true []
                (mk_exn ValueError "Unknown projection '3d'")
                eq_refl eq_refl eq_refl eq_refl) as H.
  split; apply H.
Defined.

(** ** Keyword arguments *)

Lemma kw_get_del_other (k k' : string) (kw : kwargs) :
  String.eqb k' k = false -> kw_get k (kw_del k' kw) = kw_get k kw.
Proof.
  intros Hne. induction kw as [| [k0 v] kw IH]; [reflexivity |].
  cbn [kw_del filter fst kw_get].
  destruct (String.eqb_spec k' k0) as [-> | Hk0]; cbn [negb].
  - rewrite String.eqb_sym, Hne. exact IH.
  - cbn [kw_get]. destruct (String.eqb k k0); [reflexivity | exact IH].
Qed.

Lemma kw_del_absent (k : string) (kw : kwargs) :
  kw_has k kw = false -> kw_del k kw = kw.
Proof.
  unfold kw_has. induction kw as [| [k0 v] kw IH]; [reflexivity |].
  cbn [kw_get kw_del filter fst].
  destruct (String.eqb k k0); [discriminate |].
  intros H. cbn [negb]. f_equal. exact (IH H).
Qed.

Lemma kw_default_absent (k : string) (d : pyval) (kw : kwargs) :
  kw_has k kw = false -> kw_default k d kw = d.
Proof.
  unfold kw_has, kw_default. now destruct (kw_get k kw).
Qed.

(** ** Traces of composed computations *)

Lemma trace_of_bind {A B} (m : M A) (k : A -> M B) :
  trace_of (x <- m ;; k x) =
  trace_of m ++ match result_of m with
                | inr a => trace_of (k a)
                | inl _ => []
                end.
Proof.
  unfold bind, trace_of, result_of. destruct m as [t [e | a]]; cbn [fst snd].
  - now rewrite app_nil_r.
  - now destruct (k a).
Qed.

Lemma count_app (p : event -> bool) (t1 t2 : trace) :
  count p (t1 ++ t2) = (count p t1 + count p t2)%nat.
Proof. unfold count. now rewrite filter_app, length_app. Qed.

Lemma count_bind {A B} (p : event -> bool) (m : M A) (k : A -> M B) :
  count p (trace_of m) = 0%nat ->
  (forall a, count p (trace_of (k a)) = 0%nat) ->
  count p (trace_of (x <- m ;; k x)) = 0%nat.
Proof.
  intros Hm Hk. rewrite trace_of_bind, count_app, Hm.
  destruct (result_of m); [reflexivity | apply Hk].
Qed.

Lemma count_for {A} (p : event -> bool) (xs : list A) (body : A -> M unit) :
  (forall x, count p (trace_of (body x)) = 0%nat) ->
  count p (trace_of (for_ xs body)) = 0%nat.
Proof.
  intros Hbody. induction xs as [| x xs IH]; [reflexivity |].
  cbn [for_]. apply count_bind; [apply Hbody | intros _; exact IH].
Qed.

(** ** random.shuffle rearranges and nothing else *)

Section Shuffle.

Context {A : Type}.

Lemma update_length (i : nat) (v : A) (l : list A) :
  length (update i v l) = length l.
Proof.
  revert i. induction l as [| x l IH]; intros [| i]; cbn; auto.
Qed.

(** Reading back after a write, at the same index or at another. *)
Lemma nth_error_update (i j : nat) (b : A) (l : list A) :
  (i < length l)%nat ->
  nth_error l j = Some b ->
  nth_error (update i b l) j = Some b.
Proof.
  revert i j. induction l as [| x l IH]; intros i j Hi Hj.
  - destruct j; discriminate.
  - destruct i as [| i], j as [| j]; cbn in *; auto.
    apply IH; [lia | assumption].
Qed.

(** Overwriting position [i] takes the old element out and puts the
    new one in. *)
Lemma update_Add (i : nat) (a b : A) (l : list A) :
  nth_error l i = Some a ->
  exists l0, Add a l0 l /\ Add b l0 (update i b l).
Proof.
  revert i. induction l as [| x l IH]; intros i Hi.
  - destruct i; discriminate.
  - destruct i as [| i]; cbn in *.
    + injection Hi as ->. exists l. split; constructor.
    + destruct (IH i Hi) as (l0 & Ha & Hb).
      exists (x :: l0). split; now constructor.
Qed.

Lemma swap_Permutation (i j : nat) (l : list A) :
  Permutation (swap i j l) l.
Proof.
  unfold swap.
  destruct (nth_error l i) as [a |] eqn:Hi; [| reflexivity].
  destruct (nth_error l j) as [b |] eqn:Hj; [| reflexivity].
  assert (Hlen : (i < length l)%nat)
    by (apply nth_error_Some; congruence).
  pose proof (@nth_error_update i j b l Hlen Hj) as Hj'.
  destruct (@update_Add i a b l Hi) as (l0 & Hl & Hl1).
  destruct (@update_Add j b a _ Hj') as (l0' & Hl1' & Hl2).
  apply Permutation_Add in Hl, Hl1, Hl1', Hl2.
  assert (Permutation l0' l0) as H0.
  { apply Permutation_cons_inv with b.
    now rewrite Hl1', Hl1. }
  now rewrite <- Hl2, H0, Hl.
Qed.

Lemma shuffle_from_Permutation (randbelow : nat -> nat) (i : nat) (l : list A) :
  Permutation (shuffle_from randbelow i l) l.
Proof.
  revert l. induction i as [| i IH]; intros l; cbn [shuffle_from].
  - reflexivity.
  - rewrite IH. apply swap_Permutation.
Qed.

Lemma shuffle_Permutation (randbelow : nat -> nat) (l : list A) :
  Permutation (shuffle randbelow l) l.
Proof. apply shuffle_from_Permutation. Qed.

Lemma shuffle_length (randbelow : nat -> nat) (l : list A) :
  length (shuffle randbelow l) = length l.
Proof. apply Permutation_length, shuffle_Permutation. Qed.

End Shuffle.

(** ** numpy.linspace over the unit interval *)

Lemma set_last_snoc (l : list Q) (x v : Q) : set_last (l ++ [x]) v = l ++ [v].
Proof.
  induction l as [| a l IH]; [reflexivity |].
  cbn [app set_last]. destruct (l ++ [x]) as [| b l'] eqn:E.
  - destruct l; discriminate.
  - now rewrite IH.
Qed.

Lemma Qofnat_pos (k : nat) : (1 <= k)%nat -> 0 < Qofnat k.
Proof.
  intros Hk. unfold Qofnat. change 0 with (inject_Z 0).
  rewrite <- Zlt_Qlt. lia.
Qed.

Lemma Qofnat_nonzero (k : nat) : (1 <= k)%nat -> ~ Qofnat k == 0.
Proof. intros Hk E. pose proof (Qofnat_pos Hk). lra. Qed.

Lemma Qofnat_lt (i k : nat) : (i < k)%nat -> Qofnat i < Qofnat k.
Proof. intros H. unfold Qofnat. rewrite <- Zlt_Qlt. lia. Qed.

Lemma Qofnat_nonneg (i : nat) : 0 <= Qofnat i.
Proof. unfold Qofnat. change 0 with (inject_Z 0). rewrite <- Zle_Qle. lia. Qed.

Lemma unit_step_nonzero (k : nat) :
  (1 <= k)%nat -> Qeq_bool ((1 - 0) / Qofnat k) 0 = false.
Proof.
  intros Hk. destruct (Qeq_bool ((1 - 0) / Qofnat k) 0) eqn:E; [| reflexivity].
  apply Qeq_bool_eq in E. pose proof (Qofnat_pos Hk) as Hpos.
  assert (H1 : (1 - 0) / Qofnat k * Qofnat k == 1)
    by (field; now apply Qofnat_nonzero).
  rewrite E in H1. lra.
Qed.

(** For [k >= 1] lines, [linspace(0, 1, k + 1)] is the [k] hues followed
    by the end point 1. *)
Lemma linspace_unit (k : nat) :
  (1 <= k)%nat -> linspace 0 1 (k + 1) = map (hue_at k) (seq 0 k) ++ [1].
Proof.
  intros Hk. unfold linspace.
  replace (k + 1 - 1)%nat with k by lia.
  destruct (Nat.ltb_spec 0 k) as [_ | ?]; [| lia].
  destruct (Nat.ltb_spec 1 (k + 1)) as [_ | ?]; [| lia].
  rewrite (unit_step_nonzero Hk).
  rewrite seq_app, !map_app. cbn [seq map]. rewrite set_last_snoc.
  now rewrite !map_map.
Qed.

Lemma plot_cell_hues_eq (k : nat) : plot_cell_hues k = map (hue_at k) (seq 0 k).
Proof.
  unfold plot_cell_hues. destruct k as [| k].
  - reflexivity.
  - rewrite linspace_unit by lia. apply removelast_last.
Qed.

Lemma hue_at_value (k i : nat) :
  (1 <= k)%nat -> hue_at k i == Qofnat i / Qofnat k.
Proof.
  intros Hk. unfold hue_at. field. now apply Qofnat_nonzero.
Qed.

Lemma hue_at_range (k i : nat) : (i < k)%nat -> 0 <= hue_at k i /\ hue_at k i < 1.
Proof.
  intros Hi. assert (Hk : (1 <= k)%nat) by lia.
  pose proof (Qofnat_pos Hk) as Hpos.
  rewrite (hue_at_value i Hk). split.
  - apply Qle_shift_div_l; [assumption |]. pose proof (Qofnat_nonneg i). lra.
  - apply Qlt_shift_div_r; [assumption |]. pose proof (Qofnat_lt Hi). lra.
Qed.

Lemma hue_at_inj (k i j : nat) :
  (1 <= k)%nat -> hue_at k i == hue_at k j -> i = j.
Proof.
  intros Hk H. pose proof (Qofnat_pos Hk) as Hpos.
  assert (Ei : Qofnat i == hue_at k i * Qofnat k)
    by (unfold hue_at; field; now apply Qofnat_nonzero).
  assert (Ej : Qofnat j == hue_at k j * Qofnat k)
    by (unfold hue_at; field; now apply Qofnat_nonzero).
  assert (Hij : Qofnat i == Qofnat j) by (rewrite Ei, Ej, H; reflexivity).
  unfold Qofnat in Hij.
  pose proof (proj1 (inject_Z_injective _ _) Hij). lia.
Qed.

(** ** colorsys.hsv_to_rgb at full saturation and value *)

#[local] Instance colour_eq_Equivalence : Equivalence colour_eq.
Proof.
  split.
  - intros [[r g] b]. cbn. repeat split; reflexivity.
  - intros [[r1 g1] b1] [[r2 g2] b2] (Hr & Hg & Hb). cbn.
    repeat split; now symmetry.
  - intros [[r1 g1] b1] [[r2 g2] b2] [[r3 g3] b3] (Hr & Hg & Hb) (Hr' & Hg' & Hb').
    cbn. repeat split; etransitivity; eassumption.
Qed.

Lemma colour_eqb_spec (c1 c2 : colour) : colour_eqb c1 c2 = true <-> colour_eq c1 c2.
Proof.
  destruct c1 as [[r1 g1] b1], c2 as [[r2 g2] b2]. cbn.
  rewrite !andb_true_iff, !Qeq_bool_iff. tauto.
Qed.

(** On non-negative numbers [int()] is the floor. *)
Lemma Qtrunc_floor (x : Q) : 0 <= x -> Qtrunc x = Qfloor x.
Proof.
  destruct x as [n d]. unfold Qle, Qtrunc, Qfloor. cbn.
  intros Hn. apply Z.quot_div_nonneg; lia.
Qed.

(** A hue in [0, 1) lies in one of the six sectors, at a fraction in
    [0, 1) of it. *)
Lemma sector_range (h : Q) :
  0 <= h -> h < 1 ->
  (0 <= Qtrunc (h * 6) <= 5)%Z
  /\ 0 <= h * 6 - inject_Z (Qtrunc (h * 6))
  /\ h * 6 - inject_Z (Qtrunc (h * 6)) < 1.
Proof.
  intros H0 H1. rewrite Qtrunc_floor by lra.
  pose proof (Qfloor_le (h * 6)) as Hlo.
  pose proof (Qlt_floor (h * 6)) as Hhi.
  rewrite inject_Z_plus in Hhi.
  assert (Hneg : inject_Z (-1) < inject_Z (Qfloor (h * 6)))
    by (unfold inject_Z at 1; unfold inject_Z at 2 in Hhi; lra).
  assert (Hsix : inject_Z (Qfloor (h * 6)) < inject_Z 6)
    by (unfold inject_Z at 2; lra).
  rewrite <- Zlt_Qlt in Hneg, Hsix.
  unfold inject_Z at 2 in Hhi.
  repeat split; try lia; lra.
Qed.

Lemma hsv_to_rgb_sector (h : Q) :
  0 <= h -> h < 1 ->
  colour_eq (hsv_to_rgb h 1 1)
    (sector_colour (Qtrunc (h * 6)) (h * 6 - inject_Z (Qtrunc (h * 6)))).
Proof.
  intros H0 H1. destruct (sector_range H0 H1) as (Hi & _).
  unfold hsv_to_rgb. change (Qeq_bool 1 0) with false. cbv iota zeta.
  remember (Qtrunc (h * 6)) as i eqn:Ei. clear Ei.
  assert (Hcases : (i = 0 \/ i = 1 \/ i = 2 \/ i = 3 \/ i = 4 \/ i = 5)%Z) by lia.
  destruct Hcases as [-> | [-> | [-> | [-> | [-> | ->]]]]];
    cbn [Z.modulo Z.div_eucl Z.pos_div_eucl Z.leb Z.compare Z.ltb Z.sub Z.add
         Z.opp Z.mul Z.succ_double Z.double Z.pred_double Pos.compare
         Pos.compare_cont Z.pos_sub Pos.mul Pos.add Pos.succ snd fst
         sector_colour colour_eq];
    repeat split; ring.
Qed.

(** Different sectors, or different fractions of one sector, are
    different colours. *)
Lemma sector_colour_inj (i1 i2 : Z) (f1 f2 : Q) :
  (0 <= i1 <= 5)%Z -> (0 <= i2 <= 5)%Z ->
  0 <= f1 -> f1 < 1 -> 0 <= f2 -> f2 < 1 ->
  colour_eq (sector_colour i1 f1) (sector_colour i2 f2) ->
  i1 = i2 /\ f1 == f2.
Proof.
  intros Hi1 Hi2 Hf1 Hf1' Hf2 Hf2' Heq.
  assert (C1 : (i1 = 0 \/ i1 = 1 \/ i1 = 2 \/ i1 = 3 \/ i1 = 4 \/ i1 = 5)%Z) by lia.
  assert (C2 : (i2 = 0 \/ i2 = 1 \/ i2 = 2 \/ i2 = 3 \/ i2 = 4 \/ i2 = 5)%Z) by lia.
  destruct C1 as [-> | [-> | [-> | [-> | [-> | ->]]]]];
    destruct C2 as [-> | [-> | [-> | [-> | [-> | ->]]]]];
    cbn [sector_colour colour_eq] in Heq; destruct Heq as (Hr & Hg & Hb);
    first [ split; [reflexivity | lra] | exfalso; lra ].
Qed.

(** Hence the conversion is injective on hues in [0, 1). *)
Lemma hsv_to_rgb_hue_inj (h1 h2 : Q) :
  0 <= h1 -> h1 < 1 -> 0 <= h2 -> h2 < 1 ->
  colour_eq (hsv_to_rgb h1 1 1) (hsv_to_rgb h2 1 1) -> h1 == h2.
Proof.
  intros H1 H1' H2 H2' Heq.
  destruct (sector_range H1 H1') as (Hi1 & Hf1 & Hf1').
  destruct (sector_range H2 H2') as (Hi2 & Hf2 & Hf2').
  pose proof (hsv_to_rgb_sector H1 H1') as S1.
  pose proof (hsv_to_rgb_sector H2 H2') as S2.
  rewrite S1, S2 in Heq.
  destruct (sector_colour_inj Hi1 Hi2 Hf1 Hf1' Hf2 Hf2' Heq) as (Ei & Ef).
  rewrite Ei in Ef.
  remember (inject_Z (Qtrunc (h2 * 6))) as z. clear - Ef. lra.
Qed.

(** ** The colours of a scene *)

Lemma NoDupA_map_inj {X} (f : X -> colour) (l : list X) :
  NoDup l ->
  (forall x y, In x l -> In y l -> colour_eq (f x) (f y) -> x = y) ->
  NoDupA colour_eq (map f l).
Proof.
  induction 1 as [| x l Hx Hnd IH]; intros Hinj; cbn [map]; constructor.
  - rewrite InA_alt. intros (c & Hc & Hin).
    apply in_map_iff in Hin as (y & <- & Hy).
    apply Hx. rewrite (Hinj x y); [assumption | now left | now right | assumption].
  - apply IH. intros a b Ha Hb. apply Hinj; now right.
Qed.

Lemma Forall2_map_self {X Y} (R : X -> Y -> Prop) (f : X -> Y) (l : list X) :
  (forall x, In x l -> R x (f x)) -> Forall2 R l (map f l).
Proof.
  induction l as [| x l IH]; intros H; cbn [map]; constructor.
  - apply H. now left.
  - apply IH. intros y Hy. apply H. now right.
Qed.

Lemma plot_cell_colours_length (randbelow : nat -> nat) (k : nat) :
  length (plot_cell_colours randbelow k) = k.
Proof.
  unfold plot_cell_colours. rewrite shuffle_length, length_map.
  now rewrite plot_cell_hues_eq, length_map, length_seq.
Qed.

Lemma plot_cell_hues_distinct (k : nat) :
  NoDupA colour_eq (map (fun hue => hsv_to_rgb hue 1 1) (plot_cell_hues k)).
Proof.
  rewrite plot_cell_hues_eq, map_map.
  apply NoDupA_map_inj; [apply seq_NoDup |].
  intros i j Hi Hj Heq. apply in_seq in Hi, Hj.
  destruct (@hue_at_range k i) as (Hi0 & Hi1); [lia |].
  destruct (@hue_at_range k j) as (Hj0 & Hj1); [lia |].
  apply (@hue_at_inj k); [lia |].
  now apply hsv_to_rgb_hue_inj.
Qed.

Lemma linspace_unit_spacing (k : nat) :
  Forall2 (fun i v => v == Qofnat i / Qofnat k) (seq 0 (k + 1)) (linspace 0 1 (k + 1)).
Proof.
  destruct k as [| k].
  - repeat constructor.
  - rewrite linspace_unit by lia. rewrite seq_app. apply Forall2_app.
    + apply Forall2_map_self. intros i _. apply hue_at_value. lia.
    + cbn [seq Nat.add]. repeat constructor.
      field. apply Qofnat_nonzero. lia.
Qed.

(** ** What the draws decide in random.shuffle *)

Section ShuffleDraws.

Context {A : Type}.

Lemma update_app_l (i : nat) (v : A) (p s : list A) :
  (i < length p)%nat -> update i v (p ++ s) = update i v p ++ s.
Proof.
  revert i. induction p as [| x p IH]; intros i Hi; cbn in Hi; [lia |].
  destruct i as [| i]; cbn [update app]; [reflexivity |].
  f_equal. apply IH. lia.
Qed.

Lemma nth_error_update_eq (i : nat) (v : A) (l : list A) :
  (i < length l)%nat -> nth_error (update i v l) i = Some v.
Proof.
  revert i. induction l as [| x l IH]; intros i Hi; cbn in Hi; [lia |].
  destruct i as [| i]; cbn [update nth_error]; [reflexivity |].
  apply IH. lia.
Qed.

Lemma nth_error_update_neq (i j : nat) (v : A) (l : list A) :
  i <> j -> nth_error (update i v l) j = nth_error l j.
Proof.
  revert i j. induction l as [| x l IH]; intros i j Hij.
  - destruct i; reflexivity.
  - destruct i as [| i], j as [| j]; cbn [update nth_error];
      try reflexivity; try congruence.
    apply IH. congruence.
Qed.

Lemma swap_length (i j : nat) (l : list A) : length (swap i j l) = length l.
Proof. apply Permutation_length, swap_Permutation. Qed.

(** A swap inside a prefix leaves what follows the prefix alone. *)
Lemma swap_app_l (i j : nat) (p s : list A) :
  (i < length p)%nat -> (j < length p)%nat -> swap i j (p ++ s) = swap i j p ++ s.
Proof.
  intros Hi Hj. unfold swap. rewrite !nth_error_app1 by assumption.
  destruct (nth_error p i) as [a |]; [| reflexivity].
  destruct (nth_error p j) as [b |]; [| reflexivity].
  rewrite (@update_app_l i b p s Hi).
  apply update_app_l. now rewrite update_length.
Qed.

(** After the swap, position [i] holds what was at position [j]. *)
Lemma nth_error_swap_l (i j : nat) (l : list A) (x : A) :
  (i < length l)%nat -> nth_error l j = Some x ->
  nth_error (swap i j l) i = Some x.
Proof.
  intros Hi Hj. unfold swap.
  destruct (nth_error l i) as [a |] eqn:Ei;
    [| apply nth_error_None in Ei; lia].
  rewrite Hj. destruct (Nat.eq_dec j i) as [-> | Hne].
  - assert (a = x) by congruence. subst a.
    apply nth_error_update_eq. now rewrite update_length.
  - rewrite nth_error_update_neq by assumption.
    now apply nth_error_update_eq.
Qed.

(** The steps below index [i] never reach beyond a prefix longer than [i]. *)
Lemma shuffle_from_app_l (randbelow : nat -> nat) (i : nat) (p s : list A) :
  (i < length p)%nat ->
  shuffle_from randbelow i (p ++ s) = shuffle_from randbelow i p ++ s.
Proof.
  revert p. induction i as [| i IH]; intros p Hi; cbn [shuffle_from]; [reflexivity |].
  assert (Hj : (randbelow (S i + 1) mod (S i + 1) < length p)%nat).
  { pose proof (Nat.mod_upper_bound (randbelow (S i + 1)%nat) (S i + 1)%nat). lia. }
  rewrite (@swap_app_l (S i) _ p s Hi Hj). apply IH. rewrite swap_length. lia.
Qed.

(** Only the answers to the bounds up to [i + 1] matter. *)
Lemma shuffle_from_ext (r1 r2 : nat -> nat) (i : nat) (l : list A) :
  (forall n, (n <= i + 1)%nat -> r1 n = r2 n) ->
  shuffle_from r1 i l = shuffle_from r2 i l.
Proof.
  revert l. induction i as [| i IH]; intros l H; cbn [shuffle_from]; [reflexivity |].
  rewrite (H (S i + 1)%nat) by lia. apply IH. intros n Hn. apply H. lia.
Qed.

Lemma snoc_of_last (l : list A) (m : nat) (x : A) :
  length l = S m -> nth_error l m = Some x ->
  exists p, l = p ++ [x] /\ length p = m.
Proof.
  intros Hlen Hm.
  destruct (@exists_last _ l) as (p & a & ->); [destruct l; discriminate |].
  rewrite length_app in Hlen. cbn in Hlen.
  assert (Hp : length p = m) by lia.
  rewrite nth_error_app2, Hp, Nat.sub_diag in Hm by lia.
  cbn in Hm. injection Hm as ->. now exists p.
Qed.

(** The first draw decides the last place: after the shuffle it holds
    the element that stood at the drawn index. *)
Lemma shuffle_last (randbelow : nat -> nat) (l : list A) :
  l <> [] ->
  nth_error (shuffle randbelow l) (length l - 1)
    = nth_error l (randbelow (length l) mod length l).
Proof.
  intros Hne. unfold shuffle.
  destruct (length l) as [| [| m]] eqn:Hlen.
  - destruct l; [congruence | discriminate].
  - cbn [Nat.sub shuffle_from]. now rewrite Nat.mod_1_r.
  - replace (S (S m) - 1)%nat with (S m) by lia. cbn [shuffle_from].
    replace (S m + 1)%nat with (S (S m)) by lia.
    set (j := (randbelow (S (S m)) mod S (S m))%nat).
    assert (Hj : (j < length l)%nat)
      by (rewrite Hlen; apply Nat.mod_upper_bound; lia).
    destruct (nth_error l j) as [x |] eqn:Ej;
      [| apply nth_error_None in Ej; lia].
    assert (Hm : (S m < length l)%nat) by lia.
    pose proof (@nth_error_swap_l (S m) j l x Hm Ej) as Hlast.
    destruct (@snoc_of_last (swap (S m) j l) (S m) x) as (p & Ep & Hp);
      [rewrite swap_length; exact Hlen | exact Hlast |].
    rewrite Ep, shuffle_from_app_l by lia.
    assert (Hl : length (shuffle_from randbelow m p) = S m)
      by (rewrite <- Hp; apply Permutation_length, shuffle_from_Permutation).
    rewrite nth_error_app2, Hl, Nat.sub_diag by lia.
    reflexivity.
Qed.

(** Every rearrangement is the outcome of some draws. *)
Lemma shuffle_reaches (target l : list A) :
  Permutation l target -> exists randbelow, shuffle randbelow l = target.
Proof.
  revert l. induction target as [| x t IH] using rev_ind; intros l Hperm.
  - apply Permutation_sym, Permutation_nil in Hperm. subst l.
    now exists (fun _ => 0%nat).
  - assert (Hlen : length l = S (length t)).
    { rewrite (Permutation_length Hperm), length_app. cbn. lia. }
    assert (Hin : In x l).
    { apply (Permutation_in x (Permutation_sym Hperm)), in_or_app. right. now left. }
    apply In_nth_error in Hin as (j & Ej).
    assert (Hj : (j < length l)%nat) by (apply nth_error_Some; congruence).
    assert (Hm : (length t < length l)%nat) by lia.
    pose proof (@nth_error_swap_l (length t) j l x Hm Ej) as Hlast.
    destruct (@snoc_of_last (swap (length t) j l) (length t) x) as (p & Ep & Hp);
      [rewrite swap_length; exact Hlen | exact Hlast |].
    assert (Hpt : Permutation p t).
    { apply Permutation_app_inv_r with [x].
      rewrite <- Ep. now rewrite swap_Permutation. }
    destruct (IH p Hpt) as (r0 & Hr0).
    exists (fun n => if Nat.eqb n (S (length t)) then j else r0 n).
    unfold shuffle. rewrite Hlen.
    destruct (length t) as [| m] eqn:Ht.
    + cbn [Nat.sub shuffle_from].
      destruct t; [| discriminate]. 
      destruct l as [| a [| b l]]; try discriminate.
      apply Permutation_length_1 in Hperm. now subst a.
    + replace (S (S m) - 1)%nat with (S m) by lia. cbn [shuffle_from].
      replace (S m + 1)%nat with (S (S m)) by lia.
      rewrite Nat.eqb_refl, Nat.mod_small by lia.
      rewrite Ep, shuffle_from_app_l by lia.
      f_equal. rewrite <- Hr0. unfold shuffle. rewrite Hp.
      replace (S m - 1)%nat with m by lia.
      apply shuffle_from_ext. intros n Hn.
      destruct (Nat.eqb_spec n (S (S m))); [lia | reflexivity].
Qed.

End ShuffleDraws.

(** C7.  For a scene of [k] curves [plot_cell] has exactly [k] colours,
    no two of them equal.  They come from the [k + 1] values
    [linspace(0, 1, k + 1)], which are [i / k] for [i = 0 .. k], with the
    last one dropped; each hue goes through [hsv_to_rgb(hue, 1, 1)]; and
    the shuffle rearranges the resulting list without changing a colour.
    The order is the draws' doing: the colour in the last place is the
    one at the index the first draw names; every rearrangement of the
    colours is the outcome of some draws; and from two curves on there
    are draws that give different orders. *)
Theorem plot_cell_colours_distinct (randbelow : nat -> nat) (k : nat) :
  let samples := linspace 0 1 (k + 1) in
  let hues := plot_cell_hues k in
  let unshuffled := map (fun hue => hsv_to_rgb hue 1 1) hues in
  let colours := plot_cell_colours randbelow k in
  length colours = k
  /\ NoDupA colour_eq colours
  /\ length samples = (k + 1)%nat
  /\ Forall2 (fun i v => v == Qofnat i / Qofnat k) (seq 0 (k + 1)) samples
  /\ hues = removelast samples
  /\ Permutation colours unshuffled
  /\ nth_error colours (k - 1) = nth_error unshuffled (randbelow k mod k)%nat
  /\ (forall target,
        Permutation unshuffled target ->
        exists draws, plot_cell_colours draws k = target)
  /\ ((2 <= k)%nat ->
      exists draws1 draws2, plot_cell_colours draws1 k <> plot_cell_colours draws2 k).
Proof.
  intros samples hues unshuffled colours.
  assert (Hperm : Permutation colours unshuffled) by apply shuffle_Permutation.
  assert (Hlen0 : length unshuffled = k).
  { subst unshuffled hues.
    now rewrite length_map, plot_cell_hues_eq, length_map, length_seq. }
  assert (Hnodup : NoDupA colour_eq unshuffled) by apply plot_cell_hues_distinct.
  assert (Hreach : forall target,
             Permutation unshuffled target ->
             exists draws, plot_cell_colours draws k = target).
  { intros target Ht. exact (shuffle_reaches Ht). }
  split; [| split; [| split; [| split; [| split; [reflexivity |]]]]].
  - apply plot_cell_colours_length.
  - apply (PermutationA_preserves_NoDupA colour_eq_Equivalence) with unshuffled.
    + apply Permutation_PermutationA; [exact colour_eq_Equivalence |].
      now symmetry.
    + exact Hnodup.
  - pose proof (Forall2_length (linspace_unit_spacing k)) as HL.
    rewrite length_seq in HL. now symmetry.
  - apply linspace_unit_spacing.
  - split; [exact Hperm |]. split; [| split; [exact Hreach |]].
    + subst colours. unfold plot_cell_colours. fold hues. fold unshuffled.
      destruct unshuffled as [| c cs] eqn:Eu.
      * cbn [shuffle shuffle_from length Nat.sub].
        now destruct (k - 1)%nat, (randbelow k mod k)%nat.
      * rewrite <- Hlen0. apply shuffle_last. discriminate.
    + intros Hk.
      destruct unshuffled as [| a [| b rest]] eqn:Eu; cbn in Hlen0; try lia.
      destruct (Hreach (a :: b :: rest) (Permutation_refl _)) as (d1 & Hd1).
      destruct (Hreach (b :: a :: rest) (perm_swap b a rest)) as (d2 & Hd2).
      exists d1, d2. rewrite Hd1, Hd2. intros Heq.
      injection Heq as Hab _.
      inversion Hnodup as [| ? ? Hnotin _]; subst.
      apply Hnotin. left. reflexivity.
Qed.

(** Three curves: the reversed order is reachable, two different orders
    exist, and with a generator that always answers 0 the last curve
    gets the first hue's colour. *)
Lemma plot_cell_colours_distinct_witness :
  (exists draws,
      plot_cell_colours draws 3
        = rev (map (fun hue => hsv_to_rgb hue 1 1) (plot_cell_hues 3)))
  /\ (exists draws1 draws2, plot_cell_colours draws1 3 <> plot_cell_colours draws2 3)
  /\ nth_error (plot_cell_colours rand_zero 3) 2
     = nth_error (map (fun hue => hsv_to_rgb hue 1 1) (plot_cell_hues 3)) 0.
Proof.
  pose proof (plot_cell_colours_distinct rand_zero 3)
    as (_ & _ & _ & _ & _ & _ & Hlast & Hreach & Hdiff).
  split; [| split].
  - apply Hreach. apply Permutation_rev.
  - apply Hdiff. lia.
  - exact Hlast.
Defined.

(** ** plot_line never clears unless asked to *)

Lemma is_str_true (v : pyval) (s : string) : is_str v s = true -> v = VStr s.
Proof.
  destruct v; cbn; try discriminate.
  intros H. apply String.eqb_eq in H. now subst.
Qed.

Section NoClear.

Variable env : Env.

(** A mode other than ['auto'] is taken as it is, without probing. *)
Lemma plot_line_resolve_fixed (mode : pyval) :
  is_str mode "auto" = false -> plot_line_resolve env mode = ([], inr mode).
Proof.
  intros H. unfold plot_line_resolve.
  rewrite H, bind_ret, H, bind_ret, H, bind_ret, H. reflexivity.
Qed.

Lemma probe_matplotlib_no_clear :
  count is_clear (trace_of (probe_matplotlib env)) = 0%nat.
Proof.
  unfold probe_matplotlib, import_, extcall, trace_of.
  destruct (importable env "matplotlib.pyplot"),
    (importable env "mpl_toolkits.mplot3d"),
    (plt_figure env), (add_subplot_3d env); reflexivity.
Qed.

Lemma plot_line_resolve_no_clear (mode : pyval) :
  count is_clear (trace_of (plot_line_resolve env mode)) = 0%nat.
Proof.
  destruct (is_str mode "auto") eqn:Hauto.
  - apply is_str_true in Hauto. subst mode.
    rewrite plot_line_resolve_auto.
    destruct (importable env "mayavi.mlab"); [reflexivity |].
    pose proof probe_matplotlib_no_clear as Hm.
    destruct (probe_matplotlib env) as [tm [e | v]]; unfold trace_of in Hm;
      cbn [fst] in Hm.
    + destruct (catches [ImportError; ValueError] e).
      * destruct (importable env "vispy");
          rewrite after_after, trace_of_after, !count_app, Hm; reflexivity.
      * rewrite trace_of_after, count_app. unfold trace_of. cbn [fst].
        rewrite Hm. reflexivity.
    + rewrite trace_of_after, count_app. unfold trace_of. cbn [fst].
      rewrite Hm. reflexivity.
  - now rewrite plot_line_resolve_fixed.
Qed.

Lemma plot_line_mayavi_no_clear (points : ndarray3) (kw : kwargs) :
  count is_clear (trace_of (plot_line_mayavi env points false kw)) = 0%nat.
Proof.
  unfold plot_line_mayavi, import_, trace_of.
  destruct (importable env "mayavi.mlab"); reflexivity.
Qed.

Lemma plot_line_matplotlib_no_clear (points : ndarray3) (kw : kwargs) :
  count is_clear (trace_of (plot_line_matplotlib env points kw)) = 0%nat.
Proof.
  unfold plot_line_matplotlib, import_, extcall, trace_of.
  destruct (importable env "matplotlib.pyplot"),
    (importable env "mpl_toolkits.mplot3d"),
    (plt_figure env), (gca_3d env); reflexivity.
Qed.

Lemma plot_line_vispy_no_clear (points : ndarray3) (kw : kwargs) :
  count is_clear (trace_of (plot_line_vispy env points kw)) = 0%nat.
Proof.
  unfold plot_line_vispy, import_, lift, trace_of.
  destruct (importable env "vispy"), (importable env "vispy.app"),
    (importable env "vispy.scene"); try reflexivity.
  destruct (np_max (col0 points)) as [e | mx]; [reflexivity |].
  destruct (np_max (col1 points)) as [e | my]; [reflexivity |].
  destruct (np_max (col2 points)) as [e | mz]; reflexivity.
Qed.

Lemma plot_line_dispatch_no_clear (mode : pyval) (points : ndarray3) (kw : kwargs) :
  count is_clear (trace_of (plot_line_dispatch env mode points false kw)) = 0%nat.
Proof.
  unfold plot_line_dispatch.
  destruct (is_str mode "mayavi"); [apply plot_line_mayavi_no_clear |].
  destruct (is_str mode "vispy"); [apply plot_line_vispy_no_clear |].
  destruct (is_str mode "matplotlib"); [apply plot_line_matplotlib_no_clear |].
  reflexivity.
Qed.

(** With [clf=False], [plot_line] clears nothing, whatever the mode. *)
Lemma plot_line_no_clear (points : ndarray3) (mode : pyval) (kw : kwargs) :
  count is_clear (trace_of (plot_line env points mode false kw)) = 0%nat.
Proof.
  unfold plot_line. apply count_bind; [reflexivity | intros _].
  apply count_bind; [apply plot_line_resolve_no_clear | intros mode'].
  apply plot_line_dispatch_no_clear.
Qed.

Lemma plot_cell_call_no_clear (segment : ndarray3) (c : colour) (kw : kwargs) :
  count is_clear (trace_of (plot_cell_call env segment c kw)) = 0%nat.
Proof.
  unfold plot_cell_call.
  destruct (kw_has "clf" kw || kw_has "color" kw || kw_has "points" kw)%bool;
    [reflexivity | apply plot_line_no_clear].
Qed.

End NoClear.

(** ** plot_cell *)

(** C10.  When mayavi imports, every run of [plot_cell] starts by
    importing mayavi and clearing the scene, and clears nothing after
    that: exactly one clear, whatever the lines, the boundary, the
    keyword arguments and the random draws.  The [clf] argument is never
    read: the run with [clf=False] is the run with [clf=True]. *)
Theorem plot_cell_clears_once (env : Env) (randbelow : nat -> nat)
    (lines : list (list ndarray3)) (boundary : pyval) (clf : bool) (kw : kwargs) :
  importable env "mayavi.mlab" = true ->
  (exists rest,
      trace_of (plot_cell env randbelow lines boundary clf kw)
        = EvImport "mayavi.mlab" :: EvMayClf :: rest
      /\ count is_clear rest = 0%nat)
  /\ count is_clear (trace_of (plot_cell env randbelow lines boundary clf kw)) = 1%nat
  /\ plot_cell env randbelow lines boundary false kw
     = plot_cell env randbelow lines boundary true kw.
Proof.
  intros Hmay.
  assert (Hrun : exists m : M unit,
             plot_cell env randbelow lines boundary clf kw
               = after [EvImport "mayavi.mlab"; EvMayClf] m
             /\ count is_clear (trace_of m) = 0%nat).
  { unfold plot_cell.
    rewrite (import_ok env _ Hmay), bind_value, bind_emit, after_after. cbn [app].
    eexists. split; [reflexivity |].
    apply count_bind.
    - apply count_for. intros [line c]. apply count_for. intros segment.
      apply plot_cell_call_no_clear.
    - intros _. destruct boundary; try reflexivity;
        unfold lift, bind; match goal with
        | |- context [plot_cell_boundary ?b] => destruct (plot_cell_boundary b)
        end; reflexivity. }
  destruct Hrun as (m & Hm & Hclear).
  split; [| split].
  - exists (trace_of m). rewrite Hm. split; [reflexivity | exact Hclear].
  - rewrite Hm, trace_of_after, count_app, Hclear. reflexivity.
  - reflexivity.
Qed.

Lemma plot_cell_clears_once_witness :
  count is_clear
    (trace_of (plot_cell env_all rand_top three_by_two VNone false [])) = 1%nat
  /\ plot_cell env_all rand_top three_by_two VNone false []
     = plot_cell env_all rand_top three_by_two VNone true [].
Proof.
  pose proof (@plot_cell_clears_once env_all rand_top three_by_two VNone false []
                eq_refl) as (_ & H1 & H2).
  split; [exact H1 | exact H2].
Defined.

(** What one call of [plot_line] from [plot_cell] does when mayavi
    imports and the keyword arguments are plain: it resolves ['auto'] to
    mayavi and draws once, with the curve's colour and without
    clearing. *)
Lemma plot_cell_call_mayavi (env : Env) (segment : ndarray3) (c : colour) (kw : kwargs) :
  importable env "mayavi.mlab" = true ->
  plain_kwargs kw = true ->
  exists mus kw',
    plot_cell_call env segment c kw =
      ([EvPlotLine segment (VStr "auto") false (("color"%string, colour_val c) :: kw);
        EvImport "mayavi.mlab"; EvImport "mayavi.mlab";
        EvMayPlot3d (col0 segment) (col1 segment) (col2 segment) mus kw'],
       inr tt)
    /\ kw_get "color" kw' = Some (colour_val c).
Proof.
  intros Hmay Hkw. unfold plain_kwargs in Hkw.
  apply negb_true_iff in Hkw.
  apply orb_false_iff in Hkw as (Hkw & Hpoints).
  apply orb_false_iff in Hkw as (Hkw & Hcolor).
  apply orb_false_iff in Hkw as (Hmode & Hclf).
  unfold plot_cell_call. rewrite Hclf, Hcolor, Hpoints. cbn [orb].
  rewrite kw_default_absent, kw_del_absent by exact Hmode.
  unfold plot_line.
  rewrite bind_emit, plot_line_resolve_auto, Hmay, bind_value.
  change (plot_line_dispatch env (VStr "mayavi") segment false
            (("color"%string, colour_val c) :: kw))
    with (plot_line_mayavi env segment false (("color"%string, colour_val c) :: kw)).
  unfold plot_line_mayavi.
  cbv zeta. rewrite (import_ok env _ Hmay), bind_value. cbv iota.
  rewrite bind_ret.
  do 2 eexists. split; [reflexivity |].
  cbn [kw_get String.eqb Ascii.eqb Bool.eqb].
  rewrite !kw_get_del_other by reflexivity.
  reflexivity.
Qed.

(** The claim of C2 fails as stated: on three curves of two segments
    each, with mayavi installed, all six calls of [plot_line] have
    [clf=False]; the first one does not ask for a clear. *)
Lemma plot_cell_first_call_does_not_clear :
  map call_clf
    (plot_line_calls (trace_of (plot_cell env_all rand_top three_by_two VNone true [])))
  = [false; false; false; false; false; false]
  /\ ~ only_first_clears
        (plot_line_calls (trace_of (plot_cell env_all rand_top three_by_two VNone true []))).
Proof.
  split.
  - vm_compute. reflexivity.
  - intros H. vm_compute in H. destruct H as [H _]. discriminate.
Qed.

(** C2, as the code has it.  On three curves of two segments each, with
    mayavi importable and plain keyword arguments, [plot_cell] calls
    [plot_line] exactly six times, once per segment and in order; the two
    segments of a curve get that curve's colour; mayavi draws exactly six
    times with those colours; and all six calls have [clf=False]: the one
    clear of the run is [plot_cell]'s own, before the first call. *)
Theorem plot_cell_three_by_two (env : Env) (randbelow : nat -> nat)
    (s11 s12 s21 s22 s31 s32 : ndarray3) (boundary : pyval) (clf : bool) (kw : kwargs) :
  importable env "mayavi.mlab" = true ->
  plain_kwargs kw = true ->
  let t := trace_of (plot_cell env randbelow
                       [[s11; s12]; [s21; s22]; [s31; s32]] boundary clf kw) in
  let call s c := {| call_points := s; call_mode := VStr "auto";
                     call_clf := false; call_color := Some (colour_val c) |} in
  let draw (s : ndarray3) c := (col0 s, col1 s, col2 s, Some (colour_val c)) in
  exists c1 c2 c3,
    plot_cell_colours randbelow 3 = [c1; c2; c3]
    /\ plot_line_calls t =
         [call s11 c1; call s12 c1; call s21 c2; call s22 c2; call s31 c3; call s32 c3]
    /\ mayavi_draws t =
         [draw s11 c1; draw s12 c1; draw s21 c2; draw s22 c2; draw s31 c3; draw s32 c3]
    /\ count is_draw t = 6%nat
    /\ exists rest,
         t = EvImport "mayavi.mlab" :: EvMayClf :: rest
         /\ count is_clear rest = 0%nat.
Proof.
  intros Hmay Hkw t call draw.
  pose proof (plot_cell_colours_length randbelow 3) as Hlen.
  destruct (plot_cell_colours randbelow 3) as [| c1 [| c2 [| c3 [| c4 cs]]]] eqn:Hcol;
    try discriminate Hlen.
  exists c1, c2, c3. split; [reflexivity |].
  destruct (plot_cell_call_mayavi env s11 c1 kw Hmay Hkw) as (m11 & k11 & E11 & C11).
  destruct (plot_cell_call_mayavi env s12 c1 kw Hmay Hkw) as (m12 & k12 & E12 & C12).
  destruct (plot_cell_call_mayavi env s21 c2 kw Hmay Hkw) as (m21 & k21 & E21 & C21).
  destruct (plot_cell_call_mayavi env s22 c2 kw Hmay Hkw) as (m22 & k22 & E22 & C22).
  destruct (plot_cell_call_mayavi env s31 c3 kw Hmay Hkw) as (m31 & k31 & E31 & C31).
  destruct (plot_cell_call_mayavi env s32 c3 kw Hmay Hkw) as (m32 & k32 & E32 & C32).
  assert (Htail : exists r : exn + unit,
             match boundary with
             | VNone => ret tt
             | _ => _ <- lift (plot_cell_boundary boundary) ;; ret tt
             end = ([], r)).
  { destruct boundary; try (eexists; reflexivity);
      unfold lift, bind;
      match goal with
      | |- context [plot_cell_boundary ?b] => destruct (plot_cell_boundary b)
      end; eexists; reflexivity. }
  destruct Htail as (r & Htail).
  assert (Ht : t =
    [EvImport "mayavi.mlab"; EvMayClf;
     EvPlotLine s11 (VStr "auto") false (("color"%string, colour_val c1) :: kw);
     EvImport "mayavi.mlab"; EvImport "mayavi.mlab";
     EvMayPlot3d (col0 s11) (col1 s11) (col2 s11) m11 k11;
     EvPlotLine s12 (VStr "auto") false (("color"%string, colour_val c1) :: kw);
     EvImport "mayavi.mlab"; EvImport "mayavi.mlab";
     EvMayPlot3d (col0 s12) (col1 s12) (col2 s12) m12 k12;
     EvPlotLine s21 (VStr "auto") false (("color"%string, colour_val c2) :: kw);
     EvImport "mayavi.mlab"; EvImport "mayavi.mlab";
     EvMayPlot3d (col0 s21) (col1 s21) (col2 s21) m21 k21;
     EvPlotLine s22 (VStr "auto") false (("color"%string, colour_val c2) :: kw);
     EvImport "mayavi.mlab"; EvImport "mayavi.mlab";
     EvMayPlot3d (col0 s22) (col1 s22) (col2 s22) m22 k22;
     EvPlotLine s31 (VStr "auto") false (("color"%string, colour_val c3) :: kw);
     EvImport "mayavi.mlab"; EvImport "mayavi.mlab";
     EvMayPlot3d (col0 s31) (col1 s31) (col2 s31) m31 k31;
     EvPlotLine s32 (VStr "auto") false (("color"%string, colour_val c3) :: kw);
     EvImport "mayavi.mlab"; EvImport "mayavi.mlab";
     EvMayPlot3d (col0 s32) (col1 s32) (col2 s32) m32 k32]).
  { subst t. unfold plot_cell.
    rewrite (import_ok env _ Hmay), Htail.
    cbn [length]. rewrite Hcol. cbn [combine for_ fst snd].
    rewrite E11, E12, E21, E22, E31, E32. reflexivity. }
  rewrite Ht.
  split; [| split; [| split]].
  - cbn [plot_line_calls flat_map app kw_get String.eqb Ascii.eqb Bool.eqb].
    reflexivity.
  - cbn [mayavi_draws flat_map app]. rewrite C11, C12, C21, C22, C31, C32.
    reflexivity.
  - reflexivity.
  - eexists. split; reflexivity.
Qed.

Lemma plot_cell_three_by_two_witness :
  exists c1 c2 c3,
    plot_cell_colours rand_top 3 = [c1; c2; c3]
    /\ map call_color
         (plot_line_calls
            (trace_of (plot_cell env_all rand_top three_by_two VNone true [])))
       = map (fun c => Some (colour_val c)) [c1; c1; c2; c2; c3; c3].
Proof.
  destruct (@plot_cell_three_by_two env_all rand_top
              (segment_at 1) (segment_at 2) (segment_at 3) (segment_at 4)
              (segment_at 5) (segment_at 6) VNone true [] eq_refl eq_refl)
    as (c1 & c2 & c3 & Hcol & Hcalls & _).
  exists c1, c2, c3. split; [exact Hcol |].
  unfold three_by_two. rewrite Hcalls. reflexivity.
Defined.

(** ** The boundary *)

(** C3.  The normalisation of [plot_cell] turns a scalar [s] into
    [(0, s, 0, s, 0, s)], a 3-tuple [(a, b, c)] into [(0, a, 0, b, 0, c)],
    and returns a 6-tuple as it was given. *)
Theorem plot_cell_boundary_normalises :
  (forall s : Q,
      plot_cell_boundary (VNum s)
        = inr (VTuple [VNum 0; VNum s; VNum 0; VNum s; VNum 0; VNum s]))
  /\ (forall a b c : pyval,
         plot_cell_boundary (VTuple [a; b; c])
           = inr (VTuple [VNum 0; a; VNum 0; b; VNum 0; c]))
  /\ (forall x0 x1 y0 y1 z0 z1 : pyval,
         plot_cell_boundary (VTuple [x0; x1; y0; y1; z0; z1])
           = inr (VTuple [x0; x1; y0; y1; z0; z1])).
Proof. repeat split. Qed.

Lemma trace_of_bind_congr {A B} (m : M A) (k k' : A -> M B) :
  (forall a, trace_of (k a) = trace_of (k' a)) ->
  trace_of (x <- m ;; k x) = trace_of (x <- m ;; k' x).
Proof.
  intros H. rewrite !trace_of_bind. destruct (result_of m); [reflexivity |].
  now rewrite H.
Qed.

(** The last statement of [plot_cell] emits nothing. *)
Lemma plot_cell_boundary_silent (boundary : pyval) :
  trace_of (match boundary with
            | VNone => ret tt
            | _ => _ <- lift (plot_cell_boundary boundary) ;; ret tt
            end) = [].
Proof.
  destruct boundary; try reflexivity;
    unfold lift, bind;
    match goal with
    | |- context [plot_cell_boundary ?b] => destruct (plot_cell_boundary b)
    end; reflexivity.
Qed.

(** C9 fails on the code.  [plot_cell] computes the six extents and
    then returns: whatever the boundary, the toolkit sees the same calls
    as with no boundary at all.  At the input [lines = [[square_wave]]],
    [boundary = (1, 2, 3)], with mayavi installed, the extents are
    [(0, 1, 0, 2, 0, 3)] and the only thing drawn is the curve. *)
Theorem plot_cell_boundary_not_drawn :
  (forall (env : Env) (randbelow : nat -> nat) (lines : list (list ndarray3))
          (boundary : pyval) (clf : bool) (kw : kwargs),
      trace_of (plot_cell env randbelow lines boundary clf kw)
        = trace_of (plot_cell env randbelow lines VNone clf kw))
  /\ (let boundary := VTuple [VNum 1; VNum 2; VNum 3] in
      let t := trace_of (plot_cell env_all rand_top [[square_wave]] boundary true []) in
      plot_cell_boundary boundary
        = inr (VTuple [VNum 0; VNum 1; VNum 0; VNum 2; VNum 0; VNum 3])
      /\ filter is_draw t
         = [EvMayPlot3d (col0 square_wave) (col1 square_wave) (col2 square_wave)
              (VArray (linspace 0 1 4))
              [("colormap", VStr "hsv"); ("tube_radius", VNum 1);
               ("color", colour_val (hsv_to_rgb 0 1 1))]%string]).
Proof.
  split.
  - intros env randbelow lines boundary clf kw. unfold plot_cell.
    apply trace_of_bind_congr. intros _.
    apply trace_of_bind_congr. intros _.
    apply trace_of_bind_congr. intros _.
    now rewrite !plot_cell_boundary_silent.
  - split; vm_compute; reflexivity.
Qed.

(** ** numpy.min and numpy.max *)

Lemma Qmin_cases (x y : Q) : (Qmin x y = x /\ x <= y) \/ (Qmin x y = y /\ y <= x).
Proof.
  unfold Qmin, GenericMinMax.gmin.
  destruct (x ?= y) eqn:E.
  - left. split; [reflexivity |]. apply Qeq_alt in E. rewrite E. apply Qle_refl.
  - left. split; [reflexivity |]. apply Qlt_alt in E. now apply Qlt_le_weak.
  - right. split; [reflexivity |]. apply Qgt_alt in E. now apply Qlt_le_weak.
Qed.

Lemma Qmax_cases (x y : Q) : (Qmax x y = x /\ y <= x) \/ (Qmax x y = y /\ x <= y).
Proof.
  unfold Qmax, GenericMinMax.gmax.
  destruct (x ?= y) eqn:E.
  - left. split; [reflexivity |]. apply Qeq_alt in E. rewrite E. apply Qle_refl.
  - right. split; [reflexivity |]. apply Qlt_alt in E. now apply Qlt_le_weak.
  - left. split; [reflexivity |]. apply Qgt_alt in E. now apply Qlt_le_weak.
Qed.

Lemma fold_Qmin_spec (a : list Q) (x : Q) : is_min (fold_left Qmin a x) (x :: a).
Proof.
  revert x. induction a as [| y a IH]; intros x; cbn [fold_left].
  - split; [now left | constructor; [apply Qle_refl | constructor]].
  - destruct (IH (Qmin x y)) as (Hin & Hall).
    apply Forall_cons_iff in Hall as (Hm & Hall).
    destruct (Qmin_cases x y) as [(E & Hle) | (E & Hle)]; rewrite E in *.
    + split.
      * destruct Hin as [<- | Hin]; [now left | now right; right].
      * constructor; [assumption |]. constructor; [| assumption].
        now apply Qle_trans with x.
    + split.
      * destruct Hin as [<- | Hin]; [right; now left | now right; right].
      * constructor; [now apply Qle_trans with y |]. now constructor.
Qed.

Lemma fold_Qmax_spec (a : list Q) (x : Q) : is_max (fold_left Qmax a x) (x :: a).
Proof.
  revert x. induction a as [| y a IH]; intros x; cbn [fold_left].
  - split; [now left | constructor; [apply Qle_refl | constructor]].
  - destruct (IH (Qmax x y)) as (Hin & Hall).
    apply Forall_cons_iff in Hall as (Hm & Hall).
    destruct (Qmax_cases x y) as [(E & Hle) | (E & Hle)]; rewrite E in *.
    + split.
      * destruct Hin as [<- | Hin]; [now left | now right; right].
      * constructor; [assumption |]. constructor; [| assumption].
        now apply Qle_trans with x.
    + split.
      * destruct Hin as [<- | Hin]; [right; now left | now right; right].
      * constructor; [now apply Qle_trans with y |]. now constructor.
Qed.

(** On a non-empty array [numpy.min] returns, and what it returns is
    the least element. *)
Lemma np_min_spec (a : list Q) :
  a <> [] -> exists m, np_min a = inr m /\ is_min m a.
Proof.
  destruct a as [| x a]; [congruence | intros _].
  exists (fold_left Qmin a x). split; [reflexivity | apply fold_Qmin_spec].
Qed.

Lemma np_max_spec (a : list Q) :
  a <> [] -> exists m, np_max a = inr m /\ is_max m a.
Proof.
  destruct a as [| x a]; [congruence | intros _].
  exists (fold_left Qmax a x). split; [reflexivity | apply fold_Qmax_spec].
Qed.

(** ** plot_projection *)

(** The whole run of [plot_projection] on a non-empty array, once
    matplotlib imports. *)
Lemma plot_projection_run (env : Env) (p : row2) (ps : list row2)
    (crossings : option (list (Q * Q))) (mark_start : bool)
    (fig_ax : option (handle * handle)) (show : bool) (xmin ymin xmax ymax : Q) :
  importable env "matplotlib.pyplot" = true ->
  np_min (map px (p :: ps)) = inr xmin ->
  np_min (map py (p :: ps)) = inr ymin ->
  np_max (map px (p :: ps)) = inr xmax ->
  np_max (map py (p :: ps)) = inr ymax ->
  let fa := match fig_ax with Some fa => fa | None => plt_subplots env end in
  plot_projection env (p :: ps) crossings mark_start fig_ax show =
    (EvImport "matplotlib.pyplot"
       :: match fig_ax with Some _ => [] | None => [EvPltSubplots] end
       ++ [EvAxPlot (snd fa) (map px (p :: ps)) (map py (p :: ps)) "" [];
           EvSetXticks (snd fa); EvSetYticks (snd fa);
           EvSetXlim (snd fa) (xmin - (xmax - xmin) / 10) (xmax + (xmax - xmin) / 10);
           EvSetYlim (snd fa) (ymin - (ymax - ymin) / 10) (ymax + (ymax - ymin) / 10)]
       ++ (if mark_start then
             [EvAxPlot (snd fa) [px p] [py p] ""
                [("color", VStr "blue"); ("marker", VStr "o")]%string]
           else [])
       ++ match crossings with
          | Some (c :: cs) =>
              [EvAxPlot (snd fa) (map fst (c :: cs)) (map snd (c :: cs)) crossing_fmt
                 [("alpha"%string, VNum (1 # 2))]]
          | _ => []
          end
       ++ (if show then [EvFigShow2d (fst fa)] else []),
     inr (fst fa, snd fa)).
Proof.
  intros Himp Hxmin Hymin Hxmax Hymax fa. subst fa.
  unfold plot_projection.
  rewrite (import_ok env _ Himp), Hxmin, Hymin, Hxmax, Hymax.
  destruct fig_ax as [[fig ax] |], mark_start, crossings as [[| c cs] |], show;
    reflexivity.
Qed.

(** C5.  On a non-empty array, with matplotlib importable,
    [plot_projection] sets the x-limits once, to the least and the
    greatest first coordinate moved outwards by a tenth of their
    difference, and the y-limits likewise from the second coordinate.
    When the x-range is [0, 10] the x-limits are (-1, 11); when the
    range of an axis is zero so is its padding. *)
Theorem plot_projection_limits (env : Env) (points : list row2)
    (crossings : option (list (Q * Q))) (mark_start : bool)
    (fig_ax : option (handle * handle)) (show : bool) :
  importable env "matplotlib.pyplot" = true ->
  points <> [] ->
  let t := trace_of (plot_projection env points crossings mark_start fig_ax show) in
  exists xmin xmax ymin ymax,
    is_min xmin (map px points) /\ is_max xmax (map px points)
    /\ is_min ymin (map py points) /\ is_max ymax (map py points)
    /\ xlims t = [(xmin - (xmax - xmin) / 10, xmax + (xmax - xmin) / 10)]
    /\ ylims t = [(ymin - (ymax - ymin) / 10, ymax + (ymax - ymin) / 10)]
    /\ (xmin == 0 -> xmax == 10 ->
        xmin - (xmax - xmin) / 10 == -1 /\ xmax + (xmax - xmin) / 10 == 11)
    /\ (xmax == xmin -> (xmax - xmin) / 10 == 0)
    /\ (ymax == ymin -> (ymax - ymin) / 10 == 0).
Proof.
  intros Himp Hne t.
  destruct points as [| p ps]; [congruence |].
  assert (Hx : map px (p :: ps) <> []) by discriminate.
  assert (Hy : map py (p :: ps) <> []) by discriminate.
  destruct (np_min_spec Hx) as (xmin & Exmin & Hxmin).
  destruct (np_max_spec Hx) as (xmax & Exmax & Hxmax).
  destruct (np_min_spec Hy) as (ymin & Eymin & Hymin).
  destruct (np_max_spec Hy) as (ymax & Eymax & Hymax).
  exists xmin, xmax, ymin, ymax.
  repeat (split; [assumption |]).
  subst t.
  rewrite (@plot_projection_run env p ps crossings mark_start fig_ax show
             xmin ymin xmax ymax Himp Exmin Eymin Exmax Eymax).
  split; [| split; [| split; [| split]]].
  - destruct fig_ax, mark_start, crossings as [[| c cs] |], show; reflexivity.
  - destruct fig_ax, mark_start, crossings as [[| c cs] |], show; reflexivity.
  - intros H0 H10. rewrite H0, H10. split; reflexivity.
  - intros E. rewrite E. field.
  - intros E. rewrite E. field.
Qed.

Lemma plot_projection_limits_witness :
  let t := trace_of (plot_projection env_all ten_wide None false None true) in
  exists xmin xmax ymin ymax,
    is_min xmin (map px ten_wide) /\ is_max xmax (map px ten_wide)
    /\ is_min ymin (map py ten_wide) /\ is_max ymax (map py ten_wide)
    /\ xlims t = [(xmin - (xmax - xmin) / 10, xmax + (xmax - xmin) / 10)]
    /\ ylims t = [(ymin - (ymax - ymin) / 10, ymax + (ymax - ymin) / 10)]
    /\ (xmin == 0 -> xmax == 10 ->
        xmin - (xmax - xmin) / 10 == -1 /\ xmax + (xmax - xmin) / 10 == 11)
    /\ (xmax == xmin -> (xmax - xmin) / 10 == 0)
    /\ (ymax == ymin -> (ymax - ymin) / 10 == 0).
Proof.
  apply (@plot_projection_limits env_all ten_wide None false None true).
  - reflexivity.
  - discriminate.
Defined.




(** ** plot_line_vispy *)

Lemma coords_In (c : Q) (points : ndarray3) :
  In c (coords points) <->
  In c (col0 points) \/ In c (col1 points) \/ In c (col2 points).
Proof.
  induction points as [| [[x y] z] points IH]; cbn [coords flat_map col0 col1 col2 map
                                                     fst snd app In].
  - tauto.
  - fold (coords points). fold (col0 points) (col1 points) (col2 points).
    rewrite IH. tauto.
Qed.

(** The maximum of the three column maxima is the maximum over all
    coordinates. *)
Lemma column_max_is_max (points : ndarray3) (mx my mz m : Q) :
  is_max mx (col0 points) -> is_max my (col1 points) -> is_max mz (col2 points) ->
  is_max m [mx; my; mz] ->
  is_max m (coords points).
Proof.
  intros (Hx & Hxs) (Hy & Hys) (Hz & Hzs) (Hm & Hms).
  apply Forall_cons_iff in Hms as (Hmx & Hms).
  apply Forall_cons_iff in Hms as (Hmy & Hms).
  apply Forall_cons_iff in Hms as (Hmz & _).
  split.
  - apply coords_In.
    destruct Hm as [<- | [<- | [<- | []]]]; auto.
  - apply Forall_forall. intros c Hc. apply coords_In in Hc.
    rewrite Forall_forall in Hxs, Hys, Hzs.
    destruct Hc as [Hc | [Hc | Hc]].
    + apply Qle_trans with mx; auto.
    + apply Qle_trans with my; auto.
    + apply Qle_trans with mz; auto.
Qed.

(** When no coordinate lies below the negated maximum, the maximum is
    the largest absolute value. *)
Lemma max_abs_coord_of_max (points : ndarray3) (m : Q) :
  is_max m (coords points) ->
  Forall (fun c => - m <= c) (coords points) ->
  max_abs_coord points == m.
Proof.
  intros (Hin & Hle) Hge. rewrite Forall_forall in Hle, Hge.
  destruct (fold_Qmax_spec (map Qabs (coords points)) 0) as (HM & HMs).
  fold (max_abs_coord points) in HM, HMs.
  rewrite Forall_forall in HMs.
  apply Qle_antisym.
  - destruct HM as [<- | HM].
    + pose proof (Hge m Hin). lra.
    + apply in_map_iff in HM as (c & <- & Hc).
      apply Qabs_Qle_condition. split; auto.
  - apply Qle_trans with (Qabs m); [apply Qle_Qabs |].
    apply HMs. right. now apply in_map.
Qed.

(** C8 fails as stated: for a curve in the negative octant the camera
    distance is negative, 1.5 times the largest coordinate -1, and not
    1.5 times the largest absolute coordinate 6. *)
Lemma plot_line_vispy_distance_not_max_abs :
  exists d,
    camera_distances (trace_of (plot_line_vispy env_all negative_octant [])) = [d]
    /\ d == - (3 # 2)
    /\ (3 # 2) * max_abs_coord negative_octant == 9
    /\ ~ d == (3 # 2) * max_abs_coord negative_octant.
Proof.
  eexists. split; [vm_compute; reflexivity |].
  split; [vm_compute; reflexivity |].
  split; [vm_compute; reflexivity |].
  intros H. vm_compute in H. discriminate.
Qed.

(** C8, as the code has it.  With vispy importable and a non-empty
    curve, [plot_line_vispy] builds the tube from the points as given,
    sets a camera at 1.5 times the largest coordinate value of those
    points, and only then translates the tube by minus the mean of the
    points.  Where no coordinate is below minus the largest one, that
    distance is 1.5 times the largest absolute coordinate value. *)
Theorem plot_line_vispy_camera (env : Env) (points : ndarray3) (kw : kwargs) :
  importable env "vispy" = true ->
  importable env "vispy.app" = true ->
  importable env "vispy.scene" = true ->
  points <> [] ->
  exists m,
    is_max m (coords points)
    /\ plot_line_vispy env points kw =
         ([EvImport "vispy"; EvImport "vispy.app"; EvImport "vispy.scene";
           EvSceneCanvas; EvAddView;
           EvTube points (map (fun c => hsv_to_rgb c 1 1) (linspace 0 1 (length points)));
           EvViewAdd;
           EvSetCamera ((3 # 2) * m);
           EvSetTransform;
           EvTranslate (-1 * np_average (col0 points),
                        -1 * np_average (col1 points),
                        -1 * np_average (col2 points));
           EvCanvasShow], inr tt)
    /\ (Forall (fun c => - m <= c) (coords points) ->
        (3 # 2) * m == (3 # 2) * max_abs_coord points).
Proof.
  intros Hv Ha Hs Hne.
  assert (H0 : col0 points <> []) by (destruct points; [congruence | discriminate]).
  assert (H1 : col1 points <> []) by (destruct points; [congruence | discriminate]).
  assert (H2 : col2 points <> []) by (destruct points; [congruence | discriminate]).
  destruct (np_max_spec H0) as (mx & Ex & Hx).
  destruct (np_max_spec H1) as (my & Ey & Hy).
  destruct (np_max_spec H2) as (mz & Ez & Hz).
  assert (H3 : [mx; my; mz] <> []) by discriminate.
  destruct (np_max_spec H3) as (m & Em & Hm).
  pose proof (@column_max_is_max points mx my mz m Hx Hy Hz Hm) as Hmax.
  exists m. split; [exact Hmax |]. split.
  - unfold plot_line_vispy.
    rewrite (import_ok env _ Hv), (import_ok env _ Ha), (import_ok env _ Hs).
    rewrite !bind_value, !bind_emit, Ex, Ey, Ez, !bind_lift, Em, bind_lift.
    reflexivity.
  - intros Hge. now rewrite (@max_abs_coord_of_max points m Hmax Hge).
Qed.

Lemma plot_line_vispy_camera_witness :
  exists m,
    is_max m (coords square_wave)
    /\ camera_distances (trace_of (plot_line_vispy env_all square_wave [])) = [(3 # 2) * m].
Proof.
  destruct (@plot_line_vispy_camera env_all square_wave [] eq_refl eq_refl eq_refl)
    as (m & Hm & Hrun & _); [discriminate |].
  exists m. split; [exact Hm |]. rewrite Hrun. reflexivity.
Defined.

(** * Beyond ['auto']: pinned modes, failures, side effects *)

Lemma plot_line_pinned_run (env : Env) (points : ndarray3) (mode : pyval)
    (clf : bool) (kw : kwargs) :
  is_str mode "auto" = false ->
  plot_line env points mode clf kw =
    after [EvPlotLine points mode clf kw] (plot_line_dispatch env mode points clf kw).
Proof.
  intros H. unfold plot_line.
  rewrite bind_emit, (plot_line_resolve_fixed env mode H), bind_value, after_nil.
  reflexivity.
Qed.

Lemma plot_line_vispy_footprint (env : Env) (points : ndarray3) (kw : kwargs)
    (tk : toolkit) :
  tk <> Vispy -> touches tk (trace_of (plot_line_vispy env points kw)) = false.
Proof.
  intros Htk. unfold plot_line_vispy, import_, lift, trace_of.
  destruct (importable env "vispy"), (importable env "vispy.app"),
    (importable env "vispy.scene"); try (destruct tk; try congruence; reflexivity).
  destruct (np_max (col0 points)) as [e | mx];
    [destruct tk; try congruence; reflexivity |].
  destruct (np_max (col1 points)) as [e | my];
    [destruct tk; try congruence; reflexivity |].
  destruct (np_max (col2 points)) as [e | mz];
    destruct tk; try congruence; reflexivity.
Qed.

(** What a successful probe of matplotlib says about the environment. *)
Lemma probe_matplotlib_env (env : Env) (v : pyval) :
  result_of (probe_matplotlib env) = inr v ->
  importable env "matplotlib.pyplot" = true
  /\ importable env "mpl_toolkits.mplot3d" = true
  /\ plt_figure env = None
  /\ add_subplot_3d env = None.
Proof.
  unfold probe_matplotlib, import_, extcall, result_of.
  destruct (importable env "matplotlib.pyplot"); [| discriminate].
  destruct (importable env "mpl_toolkits.mplot3d"); [| discriminate].
  destruct (plt_figure env); [discriminate |].
  destruct (add_subplot_3d env); [discriminate |].
  auto.
Qed.

(** X1.  A mode that is none of 'auto', 'mayavi', 'vispy', 'matplotlib'
    (a misspelt name, or a value that is no string) makes [plot_line]
    raise Exception('invalid toolkit/mode') before anything is imported
    or called. *)
Theorem plot_line_invalid_mode (env : Env) (points : ndarray3) (mode : pyval)
    (clf : bool) (kw : kwargs) :
  is_str mode "auto" = false ->
  is_str mode "mayavi" = false ->
  is_str mode "vispy" = false ->
  is_str mode "matplotlib" = false ->
  plot_line env points mode clf kw =
    ([EvPlotLine points mode clf kw],
     inl (mk_exn Exception "invalid toolkit/mode")).
Proof.
  intros Ha Hm Hv Hp. rewrite (plot_line_pinned_run env points mode clf kw Ha).
  unfold plot_line_dispatch. rewrite Hm, Hv, Hp. reflexivity.
Qed.

Lemma plot_line_invalid_mode_witness :
  plot_line env_all square_wave (VStr "viispy") true [] =
    ([EvPlotLine square_wave (VStr "viispy") true []],
     inl (mk_exn Exception "invalid toolkit/mode"))
  /\ result_of (plot_line env_all square_wave (VNum 3) true []) =
     inl (mk_exn Exception "invalid toolkit/mode").
Proof.
  split.
  - apply plot_line_invalid_mode; reflexivity.
  - rewrite (@plot_line_invalid_mode env_all square_wave (VNum 3) true []);
      reflexivity.
Defined.

(** X2.  A mode given by name is trusted: [plot_line] goes straight to
    that adapter and never imports or calls another toolkit; when the
    named toolkit does not import, the adapter's ImportError comes out
    and nothing else is tried, whatever else is installed. *)
Theorem plot_line_pinned_no_fallback (env : Env) (points : ndarray3) (clf : bool)
    (kw : kwargs) :
  let run (mode : string) := plot_line env points (VStr mode) clf kw in
  let entry (mode : string) := EvPlotLine points (VStr mode) clf kw in
  (touches Matplotlib (trace_of (run "mayavi"%string)) = false
   /\ touches Vispy (trace_of (run "mayavi"%string)) = false)
  /\ (touches Mayavi (trace_of (run "matplotlib"%string)) = false
      /\ touches Vispy (trace_of (run "matplotlib"%string)) = false)
  /\ (touches Mayavi (trace_of (run "vispy"%string)) = false
      /\ touches Matplotlib (trace_of (run "vispy"%string)) = false)
  /\ (importable env "mayavi.mlab" = false ->
      run "mayavi"%string = ([entry "mayavi"%string; EvImport "mayavi.mlab"],
                      inl (mk_exn ImportError "No module named mayavi.mlab")))
  /\ (importable env "matplotlib.pyplot" = false ->
      run "matplotlib"%string = ([entry "matplotlib"%string; EvImport "matplotlib.pyplot"],
                          inl (mk_exn ImportError "No module named matplotlib.pyplot")))
  /\ (importable env "vispy" = false ->
      run "vispy"%string = ([entry "vispy"%string; EvImport "vispy"],
                     inl (mk_exn ImportError "No module named vispy"))).
Proof.
  intros run entry. subst run entry. cbv beta.
  rewrite !plot_line_pinned_run by reflexivity.
  change (plot_line_dispatch env (VStr "mayavi") points clf kw)
    with (plot_line_mayavi env points clf kw).
  change (plot_line_dispatch env (VStr "matplotlib") points clf kw)
    with (plot_line_matplotlib env points (("clf"%string, VBool clf) :: kw)).
  change (plot_line_dispatch env (VStr "vispy") points clf kw)
    with (plot_line_vispy env points (("clf"%string, VBool clf) :: kw)).
  rewrite !trace_of_after, !touches_app.
  rewrite !plot_line_mayavi_footprint, !plot_line_matplotlib_footprint,
    !plot_line_vispy_footprint by discriminate.
  repeat split.
  - intros H. unfold plot_line_mayavi, import_. rewrite H. reflexivity.
  - intros H. unfold plot_line_matplotlib, import_. rewrite H. reflexivity.
  - intros H. unfold plot_line_vispy, import_. rewrite H. reflexivity.
Qed.

Lemma plot_line_pinned_no_fallback_witness :
  plot_line env_no_mayavi square_wave (VStr "mayavi") true [] =
    ([EvPlotLine square_wave (VStr "mayavi") true []; EvImport "mayavi.mlab"],
     inl (mk_exn ImportError "No module named mayavi.mlab")).
Proof.
  apply (plot_line_pinned_no_fallback env_no_mayavi square_wave true []).
  reflexivity.
Defined.

(** X3.  In 'auto' mode only ImportError and ValueError make
    matplotlib's probe fall through.  Any other exception from it (a
    figure that cannot be opened, say) ends [plot_line] with that
    exception: vispy is not probed and nothing is drawn. *)
Theorem plot_line_auto_probe_error (env : Env) (points : ndarray3) (clf : bool)
    (kw : kwargs) (e : exn) :
  importable env "mayavi.mlab" = false ->
  result_of (probe_matplotlib env) = inl e ->
  catches [ImportError; ValueError] e = false ->
  let run := plot_line env points (VStr "auto") clf kw in
  result_of run = inl e
  /\ touches Vispy (trace_of run) = false
  /\ count is_draw (trace_of run) = 0%nat.
Proof.
  intros Hmay Hmpl Hcatch run.
  pose proof (probe_matplotlib_footprint env (tk := Vispy)) as Hfoot.
  pose proof (probe_matplotlib_no_draw env) as Hdraw.
  assert (Hrun : run =
    (EvPlotLine points (VStr "auto") clf kw :: EvImport "mayavi.mlab"
       :: trace_of (probe_matplotlib env), inl e)).
  { subst run. unfold plot_line.
    rewrite bind_emit, plot_line_resolve_auto, Hmay.
    destruct (probe_matplotlib env) as [tm [e' | v]];
      unfold result_of in Hmpl; cbn [snd] in Hmpl; [| discriminate].
    injection Hmpl as ->. rewrite Hcatch. reflexivity. }
  rewrite Hrun. split; [reflexivity |]. split.
  - change (touches Vispy (trace_of (probe_matplotlib env)) = false).
    apply Hfoot. discriminate.
  - unfold count, trace_of at 1. cbn [fst filter is_draw].
    destruct (filter is_draw (trace_of (probe_matplotlib env))) as [| ev t] eqn:E;
      [reflexivity |].
    assert (Hin : In ev (filter is_draw (trace_of (probe_matplotlib env))))
      by (rewrite E; now left).
    apply filter_In in Hin as (Hin & Hev).
    assert (existsb is_draw (trace_of (probe_matplotlib env)) = true)
      by (apply existsb_exists; eauto).
    congruence.
Qed.

Lemma plot_line_auto_probe_error_witness :
  result_of (plot_line env_no_display square_wave (VStr "auto") true []) =
    inl (mk_exn OtherError "no display name and no $DISPLAY environment variable")
  /\ touches Vispy
       (trace_of (plot_line env_no_display square_wave (VStr "auto") true [])) = false.
Proof.
  pose proof (@plot_line_auto_probe_error env_no_display square_wave true []
                (mk_exn OtherError "no display name and no $DISPLAY environment variable")
                eq_refl eq_refl eq_refl) as (H1 & H2 & _).
  split; [exact H1 | exact H2].
Defined.

(** ** The mayavi adapter's arguments *)

Lemma kw_get_del_same (k : string) (kw : kwargs) : kw_get k (kw_del k kw) = None.
Proof.
  induction kw as [| [k0 v] kw IH]; [reflexivity |].
  cbn [kw_del filter fst].
  destruct (String.eqb k k0) eqn:E; cbn [negb]; [exact IH |].
  cbn [kw_get]. rewrite E. exact IH.
Qed.

(** X4.  With mayavi importable, [plot_line_mayavi] imports, clears the
    scene exactly when [clf] is true, and then draws once.  The draw
    gets [colormap] (default 'hsv') and [tube_radius] (default 1) as
    keywords, [mus] positionally and never as a keyword, and every other
    keyword argument of the caller unchanged; an explicit [mus] other
    than None is passed on as given. *)
Theorem plot_line_mayavi_draw (env : Env) (points : ndarray3) (clf : bool) (kw : kwargs) :
  importable env "mayavi.mlab" = true ->
  exists mus kw',
    plot_line_mayavi env points clf kw =
      (EvImport "mayavi.mlab" :: (if clf then [EvMayClf] else [])
         ++ [EvMayPlot3d (col0 points) (col1 points) (col2 points) mus kw'],
       inr tt)
    /\ (kw_get "mus" kw = None -> mus = VArray (linspace 0 1 (length points)))
    /\ (forall m, kw_get "mus" kw = Some m -> m <> VNone -> mus = m)
    /\ kw_get "colormap" kw' = Some (kw_default "colormap" (VStr "hsv") kw)
    /\ kw_get "tube_radius" kw' = Some (kw_default "tube_radius" (VNum 1) kw)
    /\ kw_get "mus" kw' = None
    /\ (forall k : string,
          k <> "mus"%string -> k <> "colormap"%string -> k <> "tube_radius"%string ->
          kw_get k kw' = kw_get k kw).
Proof.
  intros Hmay. unfold plot_line_mayavi. cbv zeta.
  rewrite (import_ok env _ Hmay), bind_value.
  do 2 eexists. split; [destruct clf; reflexivity |].
  split; [| split; [| split; [| split; [| split]]]].
  - intros Hmus. unfold kw_default. now rewrite Hmus.
  - intros m Hmus Hm. unfold kw_default. rewrite Hmus.
    destruct m; congruence.
  - reflexivity.
  - reflexivity.
  - cbn [kw_get String.eqb Ascii.eqb Bool.eqb]. apply kw_get_del_same.
  - intros k Hm Hc Ht. cbn [kw_get].
    rewrite (proj2 (String.eqb_neq k "colormap") Hc).
    rewrite (proj2 (String.eqb_neq k "tube_radius") Ht).
    rewrite !kw_get_del_other; [reflexivity | | |];
      apply String.eqb_neq; congruence.
Qed.

Lemma plot_line_mayavi_draw_witness :
  exists mus kw',
    plot_line_mayavi env_all square_wave true
      [("tube_radius", VNum (1 # 4)); ("color", colour_val red)]%string =
      ([EvImport "mayavi.mlab"; EvMayClf;
        EvMayPlot3d (col0 square_wave) (col1 square_wave) (col2 square_wave) mus kw'],
       inr tt)
    /\ kw_get "tube_radius" kw' = Some (VNum (1 # 4))
    /\ kw_get "color" kw' = Some (colour_val red).
Proof.
  destruct (@plot_line_mayavi_draw env_all square_wave true
              [("tube_radius", VNum (1 # 4)); ("color", colour_val red)]%string
              eq_refl)
    as (mus & kw' & Hrun & _ & _ & _ & Htube & _ & Hother).
  exists mus, kw'. split; [exact Hrun |]. split; [exact Htube |].
  rewrite (Hother "color"%string); [reflexivity | | |]; discriminate.
Defined.

Lemma unit_samples_bounded (n : nat) :
  Forall (fun v => 0 <= v /\ v <= 1) (linspace 0 1 n).
Proof.
  destruct n as [| [| k]].
  - constructor.
  - change (linspace 0 1 1) with [0 * (1 - 0) + 0].
    constructor; [split; lra | constructor].
  - replace (S (S k)) with (S k + 1)%nat by lia.
    rewrite linspace_unit by lia. apply Forall_app. split.
    + apply Forall_forall. intros v Hv.
      apply in_map_iff in Hv as (i & <- & Hi). apply in_seq in Hi.
      destruct (@hue_at_range (S k) i) as (H0 & H1); [lia |].
      split; [assumption | now apply Qlt_le_weak].
    + constructor; [split; lra | constructor].
Qed.

(** X5.  When no [mus] is given, mayavi gets one scalar per point, and
    the [i]-th of them is [i / (n - 1)] for a curve of [n] points: evenly
    spaced from 0 at the first point to 1 at the last, all within
    [0, 1]. *)
Theorem plot_line_mayavi_default_mus (env : Env) (points : ndarray3) (clf : bool)
    (kw : kwargs) :
  importable env "mayavi.mlab" = true ->
  kw_get "mus" kw = None ->
  exists l,
    mayavi_mus (trace_of (plot_line_mayavi env points clf kw)) = [VArray l]
    /\ length l = length points
    /\ Forall2 (fun i v => v == Qofnat i / Qofnat (length points - 1))
         (seq 0 (length points)) l
    /\ Forall (fun v => 0 <= v /\ v <= 1) l.
Proof.
  intros Hmay Hmus. exists (linspace 0 1 (length points)).
  assert (Hspace : Forall2 (fun i v => v == Qofnat i / Qofnat (length points - 1))
                     (seq 0 (length points)) (linspace 0 1 (length points))).
  { destruct (length points) as [| k]; [constructor |].
    replace (S k - 1)%nat with k by lia.
    replace (S k) with (k + 1)%nat by lia.
    apply linspace_unit_spacing. }
  split; [| split; [| split]].
  - unfold plot_line_mayavi, kw_default. cbv zeta.
    rewrite Hmus, (import_ok env _ Hmay), bind_value.
    destruct clf; reflexivity.
  - apply Forall2_length in Hspace. now rewrite length_seq in Hspace.
  - exact Hspace.
  - apply unit_samples_bounded.
Qed.

Lemma plot_line_mayavi_default_mus_witness :
  exists l,
    mayavi_mus (trace_of (plot_line_mayavi env_all square_wave true [])) = [VArray l]
    /\ length l = 4%nat.
Proof.
  destruct (@plot_line_mayavi_default_mus env_all square_wave true [] eq_refl eq_refl)
    as (l & Hl & Hlen & _).
  exists l. split; [exact Hl | exact Hlen].
Defined.

(** X6.  Only the mayavi adapter ever clears.  Through matplotlib or
    vispy [plot_line] clears nothing, with [clf=True] as with [clf=False];
    through mayavi it clears once if [clf] is true and not at all
    otherwise. *)
Theorem plot_line_clear_only_mayavi (env : Env) (points : ndarray3) (clf : bool)
    (kw : kwargs) :
  count is_clear (trace_of (plot_line env points (VStr "matplotlib") clf kw)) = 0%nat
  /\ count is_clear (trace_of (plot_line env points (VStr "vispy") clf kw)) = 0%nat
  /\ (importable env "mayavi.mlab" = true ->
      count is_clear (trace_of (plot_line env points (VStr "mayavi") clf kw))
        = if clf then 1%nat else 0%nat).
Proof.
  rewrite !plot_line_pinned_run by reflexivity.
  rewrite !trace_of_after, !count_app.
  split; [| split].
  - change (plot_line_dispatch env (VStr "matplotlib") points clf kw)
      with (plot_line_matplotlib env points (("clf"%string, VBool clf) :: kw)).
    now rewrite plot_line_matplotlib_no_clear.
  - change (plot_line_dispatch env (VStr "vispy") points clf kw)
      with (plot_line_vispy env points (("clf"%string, VBool clf) :: kw)).
    now rewrite plot_line_vispy_no_clear.
  - intros Hmay.
    change (plot_line_dispatch env (VStr "mayavi") points clf kw)
      with (plot_line_mayavi env points clf kw).
    unfold plot_line_mayavi. cbv zeta.
    rewrite (import_ok env _ Hmay), bind_value.
    destruct clf; reflexivity.
Qed.

Lemma plot_line_clear_only_mayavi_witness :
  count is_clear (trace_of (plot_line env_all square_wave (VStr "mayavi") true [])) = 1%nat.
Proof.
  apply (plot_line_clear_only_mayavi env_all square_wave true []). reflexivity.
Defined.

(** X7.  When 'auto' settles on matplotlib, two figures are created:
    the one the probe built to test for 3D axes, which is then dropped,
    and the one the adapter draws on. *)
Theorem plot_line_auto_matplotlib_two_figures (env : Env) (points : ndarray3)
    (clf : bool) (kw : kwargs) (v : pyval) :
  importable env "mayavi.mlab" = false ->
  result_of (probe_matplotlib env) = inr v ->
  count is_figure (trace_of (plot_line env points (VStr "auto") clf kw)) = 2%nat.
Proof.
  intros Hmay Hprobe.
  destruct (probe_matplotlib_env env Hprobe) as (H1 & H2 & H3 & H4).
  unfold plot_line.
  rewrite bind_emit, plot_line_resolve_auto, Hmay, (probe_matplotlib_ok env Hprobe).
  unfold after at 2. cbn [fst snd app]. rewrite bind_value.
  change (plot_line_dispatch env (VStr "matplotlib") points clf kw)
    with (plot_line_matplotlib env points (("clf"%string, VBool clf) :: kw)).
  unfold plot_line_matplotlib, extcall.
  rewrite (import_ok env _ H1), (import_ok env _ H2), H3.
  destruct (gca_3d env); reflexivity.
Qed.

Lemma plot_line_auto_matplotlib_two_figures_witness :
  count is_figure
    (trace_of (plot_line env_no_mayavi square_wave (VStr "auto") true [])) = 2%nat.
Proof.
  apply (@plot_line_auto_matplotlib_two_figures env_no_mayavi square_wave true []
           (VStr "matplotlib")); reflexivity.
Defined.

(** ** The two ends of the hue circle *)

(** Hue 0 is red. *)
Lemma hsv_to_rgb_zero (h : Q) : h == 0 -> colour_eq (hsv_to_rgb h 1 1) red.
Proof.
  intros Hh.
  assert (H0 : 0 <= h) by lra. assert (H1 : h < 1) by lra.
  destruct (sector_range H0 H1) as (Hi & Hf & Hf').
  pose proof (hsv_to_rgb_sector H0 H1) as Hs.
  remember (Qtrunc (h * 6)) as i eqn:Ei. clear Ei.
  assert (Hle : inject_Z i <= inject_Z 0) by (unfold inject_Z at 2; lra).
  rewrite <- Zle_Qle in Hle.
  assert (i = 0%Z) as -> by lia.
  rewrite Hs. unfold inject_Z in *. cbn [sector_colour colour_eq red].
  repeat split; lra.
Qed.

(** Hue 1 is red as well. *)
Lemma hsv_to_rgb_one : colour_eq (hsv_to_rgb 1 1 1) red.
Proof. vm_compute. auto. Qed.

(** X8.  In [plot_cell], the sample that [[:-1]] drops is hue 1, and its
    colour is the colour of the first hue that is kept: with it, the
    first and the last curve of a scene would look the same. *)
Theorem plot_cell_dropped_hue_duplicates (k : nat) :
  (1 <= k)%nat ->
  exists h0 hs,
    plot_cell_hues k = h0 :: hs
    /\ linspace 0 1 (k + 1) = plot_cell_hues k ++ [1]
    /\ colour_eq (hsv_to_rgb 1 1 1) (hsv_to_rgb h0 1 1).
Proof.
  intros Hk. rewrite plot_cell_hues_eq, (linspace_unit Hk).
  destruct k as [| k]; [lia |].
  exists (hue_at (S k) 0), (map (hue_at (S k)) (seq 1 k)).
  split; [reflexivity |]. split; [reflexivity |].
  rewrite hsv_to_rgb_one. symmetry. apply hsv_to_rgb_zero.
  unfold hue_at. change (Qofnat 0) with 0. ring.
Qed.

Lemma plot_cell_dropped_hue_duplicates_witness :
  exists h0 hs,
    plot_cell_hues 3 = h0 :: hs
    /\ colour_eq (hsv_to_rgb 1 1 1) (hsv_to_rgb h0 1 1).
Proof.
  destruct (@plot_cell_dropped_hue_duplicates 3) as (h0 & hs & H1 & _ & H2); [lia |].
  exists h0, hs. split; [exact H1 | exact H2].
Defined.

(** ** The vispy adapter's edges *)

(** X9.  On an empty point array [plot_line_vispy] never returns: it
    ends in an exception, the camera is never set and the canvas is
    never shown. *)
Theorem plot_line_vispy_empty (env : Env) (kw : kwargs) :
  (exists e, result_of (plot_line_vispy env [] kw) = inl e)
  /\ camera_distances (trace_of (plot_line_vispy env [] kw)) = []
  /\ count is_show (trace_of (plot_line_vispy env [] kw)) = 0%nat.
Proof.
  unfold plot_line_vispy, import_.
  destruct (importable env "vispy"), (importable env "vispy.app"),
    (importable env "vispy.scene");
    (split; [eexists; reflexivity | split; reflexivity]).
Qed.

Lemma plot_line_vispy_tube (env : Env) (points : ndarray3) (kw : kwargs) :
  importable env "vispy" = true ->
  importable env "vispy.app" = true ->
  importable env "vispy.scene" = true ->
  tube_colours (trace_of (plot_line_vispy env points kw)) =
    [map (fun c => hsv_to_rgb c 1 1) (linspace 0 1 (length points))].
Proof.
  intros Hv Ha Hs. unfold plot_line_vispy, lift.
  rewrite (import_ok env _ Hv), (import_ok env _ Ha), (import_ok env _ Hs).
  destruct (np_max (col0 points)) as [e | mx]; [reflexivity |].
  destruct (np_max (col1 points)) as [e | my]; [reflexivity |].
  destruct (np_max (col2 points)) as [e | mz]; reflexivity.
Qed.

(** X10.  The tube vispy draws has one colour per point, and for a
    curve of two or more points its first and its last colour are both
    red: the gradient runs over hues 0 to 1 inclusive, and the two ends
    of the hue circle coincide. *)
Theorem plot_line_vispy_gradient_ends (env : Env) (points : ndarray3) (kw : kwargs) :
  importable env "vispy" = true ->
  importable env "vispy.app" = true ->
  importable env "vispy.scene" = true ->
  (2 <= length points)%nat ->
  exists cs first last,
    tube_colours (trace_of (plot_line_vispy env points kw)) = [cs]
    /\ length cs = length points
    /\ nth_error cs 0 = Some first
    /\ nth_error cs (length points - 1) = Some last
    /\ colour_eq first red
    /\ colour_eq last red.
Proof.
  intros Hv Ha Hs Hlen.
  rewrite (plot_line_vispy_tube env points kw Hv Ha Hs).
  destruct (length points) as [| [| k]]; try lia.
  replace (S (S k)) with (S k + 1)%nat by lia.
  rewrite linspace_unit by lia.
  rewrite map_app. cbn [seq map].
  exists (hsv_to_rgb (hue_at (S k) 0) 1 1
            :: map (fun c => hsv_to_rgb c 1 1) (map (hue_at (S k)) (seq 1 k))
            ++ [hsv_to_rgb 1 1 1]),
    (hsv_to_rgb (hue_at (S k) 0) 1 1), (hsv_to_rgb 1 1 1).
  split; [reflexivity |].
  split; [cbn [length]; rewrite length_app, !length_map, length_seq; cbn; lia |].
  split; [reflexivity |].
  split.
  - replace (S k + 1 - 1)%nat with (S k) by lia. cbn [nth_error].
    rewrite nth_error_app2 by (rewrite !length_map, length_seq; lia).
    rewrite !length_map, length_seq, Nat.sub_diag. reflexivity.
  - split; [| apply hsv_to_rgb_one].
    apply hsv_to_rgb_zero. unfold hue_at. change (Qofnat 0) with 0. ring.
Qed.

Lemma plot_line_vispy_gradient_ends_witness :
  exists cs first last,
    tube_colours (trace_of (plot_line_vispy env_all square_wave [])) = [cs]
    /\ nth_error cs 0 = Some first
    /\ nth_error cs 3 = Some last
    /\ colour_eq first red
    /\ colour_eq last red.
Proof.
  destruct (@plot_line_vispy_gradient_ends env_all square_wave []
              eq_refl eq_refl eq_refl)
    as (cs & first & last & H1 & _ & H2 & H3 & H4 & H5).
  - cbn. lia.
  - exists cs, first, last. repeat split; assumption.
Defined.

(** ** plot_projection: edges, framing, handles *)

(** X11.  On an empty array [plot_projection] raises the ValueError of
    [numpy.min], after the (empty) line has been plotted and the ticks
    removed: no axis limit is set and the figure is never shown. *)
Theorem plot_projection_empty (env : Env) (crossings : option (list (Q * Q)))
    (mark_start : bool) (fig_ax : option (handle * handle)) (show : bool) :
  importable env "matplotlib.pyplot" = true ->
  let run := plot_projection env [] crossings mark_start fig_ax show in
  (exists msg, result_of run = inl (mk_exn ValueError msg))
  /\ xlims (trace_of run) = []
  /\ ylims (trace_of run) = []
  /\ count is_show (trace_of run) = 0%nat
  /\ count is_draw (trace_of run) = 1%nat.
Proof.
  intros Himp run. subst run. unfold plot_projection.
  rewrite (import_ok env _ Himp).
  destruct fig_ax as [[fig ax] |];
    (split; [eexists; reflexivity | repeat split; reflexivity]).
Qed.

Lemma plot_projection_empty_witness :
  (exists msg,
      result_of (plot_projection env_all [] None true None true)
        = inl (mk_exn ValueError msg))
  /\ count is_show (trace_of (plot_projection env_all [] None true None true)) = 0%nat.
Proof.
  pose proof (@plot_projection_empty env_all None true None true eq_refl)
    as (H1 & _ & _ & H2 & _).
  split; [exact H1 | exact H2].
Defined.

Lemma tenth_nonneg (lo hi : Q) : lo <= hi -> 0 <= (hi - lo) / 10.
Proof.
  intros H. apply Qle_shift_div_l; [reflexivity | lra].
Qed.

(** X12.  The limits [plot_projection] sets frame the whole curve: on
    a non-empty array every point has its first coordinate within the
    x-limits and its second within the y-limits, and the lower limit of
    an axis never exceeds the upper one. *)
Theorem plot_projection_limits_enclose (env : Env) (points : list row2)
    (crossings : option (list (Q * Q))) (mark_start : bool)
    (fig_ax : option (handle * handle)) (show : bool) :
  importable env "matplotlib.pyplot" = true ->
  points <> [] ->
  let t := trace_of (plot_projection env points crossings mark_start fig_ax show) in
  exists xlo xhi ylo yhi,
    xlims t = [(xlo, xhi)]
    /\ ylims t = [(ylo, yhi)]
    /\ Forall (fun p => (xlo <= px p /\ px p <= xhi) /\ (ylo <= py p /\ py p <= yhi))
         points
    /\ xlo <= xhi /\ ylo <= yhi.
Proof.
  intros Himp Hne t.
  destruct points as [| p ps]; [congruence |].
  assert (Hx : map px (p :: ps) <> []) by discriminate.
  assert (Hy : map py (p :: ps) <> []) by discriminate.
  destruct (np_min_spec Hx) as (xmin & Exmin & _ & Hxmin).
  destruct (np_max_spec Hx) as (xmax & Exmax & _ & Hxmax).
  destruct (np_min_spec Hy) as (ymin & Eymin & _ & Hymin).
  destruct (np_max_spec Hy) as (ymax & Eymax & _ & Hymax).
  rewrite Forall_forall in Hxmin, Hxmax, Hymin, Hymax.
  assert (Hbox : forall q, In q (p :: ps) ->
             (xmin <= px q /\ px q <= xmax) /\ (ymin <= py q /\ py q <= ymax)).
  { intros q Hq. repeat split;
      first [apply Hxmin | apply Hxmax | apply Hymin | apply Hymax];
      now apply in_map. }
  destruct (Hbox p (or_introl eq_refl)) as ((Hx1 & Hx2) & (Hy1 & Hy2)).
  pose proof (tenth_nonneg (Qle_trans _ _ _ Hx1 Hx2)) as Hdx.
  pose proof (tenth_nonneg (Qle_trans _ _ _ Hy1 Hy2)) as Hdy.
  exists (xmin - (xmax - xmin) / 10), (xmax + (xmax - xmin) / 10),
    (ymin - (ymax - ymin) / 10), (ymax + (ymax - ymin) / 10).
  subst t.
  rewrite (@plot_projection_run env p ps crossings mark_start fig_ax show
             xmin ymin xmax ymax Himp Exmin Eymin Exmax Eymax).
  set (dx := (xmax - xmin) / 10) in *. set (dy := (ymax - ymin) / 10) in *.
  split; [destruct fig_ax, mark_start, crossings as [[| c cs] |], show; reflexivity |].
  split; [destruct fig_ax, mark_start, crossings as [[| c cs] |], show; reflexivity |].
  split.
  - apply Forall_forall. intros q Hq.
    destruct (Hbox q Hq) as ((Hq1 & Hq2) & (Hq3 & Hq4)).
    repeat split; lra.
  - split; lra.
Qed.

Lemma plot_projection_limits_enclose_witness :
  exists xlo xhi ylo yhi,
    xlims (trace_of (plot_projection env_all ten_wide None false None true))
      = [(xlo, xhi)]
    /\ ylims (trace_of (plot_projection env_all ten_wide None false None true))
       = [(ylo, yhi)]
    /\ Forall (fun p => (xlo <= px p /\ px p <= xhi) /\ (ylo <= py p /\ py p <= yhi))
         ten_wide
    /\ xlo <= xhi /\ ylo <= yhi.
Proof.
  apply (@plot_projection_limits_enclose env_all ten_wide None false None true).
  - reflexivity.
  - discriminate.
Defined.

(** X13.  Axes handed in by the caller are the axes drawn on and the
    handles returned, and [plt.subplots()] is not called; without them
    [plt.subplots()] is called once and its handles are used and
    returned.  The figure is shown exactly when [show] is true. *)
Theorem plot_projection_handles (env : Env) (points : list row2)
    (crossings : option (list (Q * Q))) (mark_start : bool) (show : bool) :
  importable env "matplotlib.pyplot" = true ->
  points <> [] ->
  (forall fig ax,
      let run := plot_projection env points crossings mark_start (Some (fig, ax)) show in
      result_of run = inr (fig, ax)
      /\ count is_subplots (trace_of run) = 0%nat
      /\ on_axes ax (trace_of run) = true
      /\ count is_show (trace_of run) = if show then 1%nat else 0%nat)
  /\ (let run := plot_projection env points crossings mark_start None show in
      result_of run = inr (plt_subplots env)
      /\ count is_subplots (trace_of run) = 1%nat
      /\ on_axes (snd (plt_subplots env)) (trace_of run) = true
      /\ count is_show (trace_of run) = if show then 1%nat else 0%nat).
Proof.
  intros Himp Hne.
  destruct points as [| p ps]; [congruence |].
  assert (Hx : map px (p :: ps) <> []) by discriminate.
  assert (Hy : map py (p :: ps) <> []) by discriminate.
  destruct (np_min_spec Hx) as (xmin & Exmin & _).
  destruct (np_max_spec Hx) as (xmax & Exmax & _).
  destruct (np_min_spec Hy) as (ymin & Eymin & _).
  destruct (np_max_spec Hy) as (ymax & Eymax & _).
  split.
  - intros fig ax run. subst run.
    rewrite (@plot_projection_run env p ps crossings mark_start (Some (fig, ax)) show
               xmin ymin xmax ymax Himp Exmin Eymin Exmax Eymax).
    unfold result_of, trace_of, on_axes. cbn [fst snd].
    destruct mark_start, crossings as [[| c cs] |], show;
      cbn [app forallb event_ax andb]; rewrite ?Nat.eqb_refl;
      repeat split; reflexivity.
  - intros run. subst run.
    rewrite (@plot_projection_run env p ps crossings mark_start None show
               xmin ymin xmax ymax Himp Exmin Eymin Exmax Eymax).
    destruct (plt_subplots env) as [fig ax].
    unfold result_of, trace_of, on_axes. cbn [fst snd].
    destruct mark_start, crossings as [[| c cs] |], show;
      cbn [app forallb event_ax andb]; rewrite ?Nat.eqb_refl;
      repeat split; reflexivity.
Qed.

Lemma plot_projection_handles_witness :
  result_of (plot_projection env_all ten_wide None false (Some (7%nat, 8%nat)) false)
    = inr (7%nat, 8%nat)
  /\ count is_subplots
       (trace_of (plot_projection env_all ten_wide None false (Some (7%nat, 8%nat)) false))
     = 0%nat.
Proof.
  assert (Hne : ten_wide <> []) by discriminate.
  pose proof (@plot_projection_handles env_all ten_wide None false false eq_refl Hne)
    as (H & _).
  destruct (H 7%nat 8%nat) as (H1 & H2 & _).
  split; [exact H1 | exact H2].
Defined.

(** ** plot_cell over any scene *)

Lemma plot_line_calls_app (t1 t2 : trace) :
  plot_line_calls (t1 ++ t2) = plot_line_calls t1 ++ plot_line_calls t2.
Proof. apply flat_map_app. Qed.

Lemma mayavi_draws_app (t1 t2 : trace) :
  mayavi_draws (t1 ++ t2) = mayavi_draws t1 ++ mayavi_draws t2.
Proof. apply flat_map_app. Qed.

Lemma combine_fst {A B} (l1 : list A) (l2 : list B) :
  length l1 = length l2 -> map fst (combine l1 l2) = l1.
Proof.
  revert l2. induction l1 as [| a l1 IH]; intros [| b l2] H;
    cbn in *; try discriminate; [reflexivity |].
  f_equal. apply IH. lia.
Qed.

(** The segments of one curve, drawn through mayavi. *)
Lemma plot_cell_segments (env : Env) (c : colour) (kw : kwargs) (line : list ndarray3) :
  importable env "mayavi.mlab" = true ->
  plain_kwargs kw = true ->
  exists t,
    for_ line (fun segment => plot_cell_call env segment c kw) = (t, inr tt)
    /\ plot_line_calls t = map (fun s => cell_call s c) line
    /\ mayavi_draws t
       = map (fun s => (col0 s, col1 s, col2 s, Some (colour_val c))) line
    /\ count is_draw t = length line.
Proof.
  intros Hmay Hkw. induction line as [| s line IH].
  - exists []. repeat split.
  - destruct IH as (t & Et & Hcalls & Hdraws & Hcount).
    destruct (plot_cell_call_mayavi env s c kw Hmay Hkw) as (mus & kw' & Es & Hc).
    cbn [for_]. rewrite Es, bind_value, Et. unfold after. cbn [fst snd].
    eexists. split; [reflexivity |].
    rewrite plot_line_calls_app, mayavi_draws_app, count_app, Hcalls, Hdraws, Hcount.
    cbn [plot_line_calls mayavi_draws flat_map app map kw_get
           String.eqb Ascii.eqb Bool.eqb].
    rewrite Hc. repeat split.
Qed.

(** All curves of a scene, each with its colour. *)
Lemma plot_cell_curves (env : Env) (kw : kwargs) (pairs : list (list ndarray3 * colour)) :
  importable env "mayavi.mlab" = true ->
  plain_kwargs kw = true ->
  exists t,
    for_ pairs (fun lc => for_ (fst lc)
                            (fun segment => plot_cell_call env segment (snd lc) kw))
      = (t, inr tt)
    /\ plot_line_calls t
       = flat_map (fun lc => map (fun s => cell_call s (snd lc)) (fst lc)) pairs
    /\ mayavi_draws t
       = flat_map (fun lc => map (fun s => (col0 s, col1 s, col2 s,
                                            Some (colour_val (snd lc)))) (fst lc)) pairs
    /\ count is_draw t = length (concat (map fst pairs)).
Proof.
  intros Hmay Hkw. induction pairs as [| [line c] pairs IH].
  - exists []. repeat split.
  - destruct IH as (t & Et & Hcalls & Hdraws & Hcount).
    destruct (plot_cell_segments env c kw line Hmay Hkw)
      as (tl & El & Hlcalls & Hldraws & Hlcount).
    cbn [for_ fst snd]. rewrite El, bind_value, Et. unfold after. cbn [fst snd].
    eexists. split; [reflexivity |].
    rewrite plot_line_calls_app, mayavi_draws_app, count_app.
    rewrite Hcalls, Hdraws, Hcount, Hlcalls, Hldraws, Hlcount.
    cbn [flat_map map concat fst snd]. rewrite length_app. repeat split.
Qed.

(** A boundary that is not None always normalises. *)
Lemma plot_cell_boundary_returns (boundary : pyval) :
  boundary <> VNone -> exists b, plot_cell_boundary boundary = inr b.
Proof.
  intros Hb. unfold plot_cell_boundary.
  destruct boundary; try congruence; cbn;
    try (eexists; reflexivity);
    match goal with
    | |- context [if ?c then _ else _] => destruct c
    end; eexists; reflexivity.
Qed.

(** X14.  With mayavi importable and plain keyword arguments,
    [plot_cell] returns normally on any scene and calls [plot_line]
    exactly once per segment, in order, curve by curve: every segment of
    a curve with that curve's colour, never with a clear.  No curve is
    left without a colour, and mayavi draws as many tubes as the scene
    has segments. *)
Theorem plot_cell_draws_every_segment (env : Env) (randbelow : nat -> nat)
    (lines : list (list ndarray3)) (boundary : pyval) (clf : bool) (kw : kwargs) :
  importable env "mayavi.mlab" = true ->
  plain_kwargs kw = true ->
  let run := plot_cell env randbelow lines boundary clf kw in
  let coloured := combine lines (plot_cell_colours randbelow (length lines)) in
  result_of run = inr tt
  /\ map fst coloured = lines
  /\ plot_line_calls (trace_of run)
     = flat_map (fun lc => map (fun s => cell_call s (snd lc)) (fst lc)) coloured
  /\ mayavi_draws (trace_of run)
     = flat_map (fun lc => map (fun s => (col0 s, col1 s, col2 s,
                                          Some (colour_val (snd lc)))) (fst lc)) coloured
  /\ count is_draw (trace_of run) = length (concat lines).
Proof.
  intros Hmay Hkw run coloured.
  assert (Hfst : map fst coloured = lines)
    by (apply combine_fst; symmetry; apply plot_cell_colours_length).
  destruct (plot_cell_curves env kw coloured Hmay Hkw)
    as (t & Et & Hcalls & Hdraws & Hcount).
  assert (Htail : match boundary with
                  | VNone => ret tt
                  | _ => _ <- lift (plot_cell_boundary boundary) ;; ret tt
                  end = ([], inr tt)).
  { destruct boundary; try reflexivity;
      match goal with
      | |- context [plot_cell_boundary ?b] =>
          destruct (@plot_cell_boundary_returns b) as (b' & ->); [discriminate |]
      end; reflexivity. }
  assert (Hrun : run = (EvImport "mayavi.mlab" :: EvMayClf :: t, inr tt)).
  { subst run. unfold plot_cell. cbv zeta. fold coloured.
    rewrite (import_ok env _ Hmay), Htail, Et. cbn. now rewrite app_nil_r. }
  rewrite Hrun. unfold result_of, trace_of. cbn [fst snd].
  split; [reflexivity |]. split; [exact Hfst |].
  rewrite Hfst in Hcount.
  change (EvImport "mayavi.mlab" :: EvMayClf :: t)
    with ([EvImport "mayavi.mlab"; EvMayClf] ++ t).
  rewrite plot_line_calls_app, mayavi_draws_app, count_app, Hcalls, Hdraws, Hcount.
  repeat split.
Qed.

Lemma plot_cell_draws_every_segment_witness :
  result_of (plot_cell env_all rand_top three_by_two VNone true []) = inr tt
  /\ count is_draw (trace_of (plot_cell env_all rand_top three_by_two VNone true []))
     = 6%nat.
Proof.
  pose proof (@plot_cell_draws_every_segment env_all rand_top three_by_two VNone true []
                eq_refl eq_refl) as (H1 & _ & _ & _ & H2).
  split; [exact H1 | exact H2].
Defined.

(** X15.  A [color] (or [points]) keyword given to [plot_cell] clashes
    with the argument [plot_cell] itself passes to [plot_line]: on a
    scene that has a first segment the call ends in a TypeError at that
    segment, after the scene has been cleared and before anything is
    drawn. *)
Theorem plot_cell_keyword_clash (env : Env) (randbelow : nat -> nat)
    (s : ndarray3) (line : list ndarray3) (rest : list (list ndarray3))
    (boundary : pyval) (clf : bool) (kw : kwargs) :
  importable env "mayavi.mlab" = true ->
  (kw_has "color" kw || kw_has "points" kw)%bool = true ->
  exists msg,
    plot_cell env randbelow ((s :: line) :: rest) boundary clf kw =
      ([EvImport "mayavi.mlab"; EvMayClf], inl (mk_exn TypeError msg)).
Proof.
  intros Hmay Hclash.
  pose proof (plot_cell_colours_length randbelow (length ((s :: line) :: rest))) as Hlen.
  unfold plot_cell. cbv zeta.
  destruct (plot_cell_colours randbelow (length ((s :: line) :: rest))) as [| c cs];
    [discriminate Hlen |].
  rewrite (import_ok env _ Hmay). cbn [combine for_ fst snd].
  unfold plot_cell_call at 1.
  assert (Hor : (kw_has "clf" kw || kw_has "color" kw || kw_has "points" kw)%bool = true).
  { destruct (kw_has "clf" kw), (kw_has "color" kw), (kw_has "points" kw);
      cbn in *; congruence. }
  rewrite Hor. eexists. reflexivity.
Qed.

Lemma plot_cell_keyword_clash_witness :
  exists msg,
    plot_cell env_all rand_top three_by_two VNone true
      [("color"%string, colour_val red)] =
      ([EvImport "mayavi.mlab"; EvMayClf], inl (mk_exn TypeError msg)).
Proof.
  apply (@plot_cell_keyword_clash env_all rand_top (segment_at 1) [segment_at 2]
           [[segment_at 3; segment_at 4]; [segment_at 5; segment_at 6]]
           VNone true [("color"%string, colour_val red)]); reflexivity.
Defined.

(** ** What every call from plot_cell looks like *)

Lemma calls_of_quiet (t : trace) : count is_call t = 0%nat -> plot_line_calls t = [].
Proof.
  unfold count. induction t as [| ev t IH]; [reflexivity |].
  destruct ev; cbn [filter is_call length plot_line_calls flat_map app];
    try discriminate; exact IH.
Qed.

Section SingleCall.

Variable env : Env.

Lemma probe_matplotlib_no_call :
  count is_call (trace_of (probe_matplotlib env)) = 0%nat.
Proof.
  unfold probe_matplotlib, import_, extcall, trace_of.
  destruct (importable env "matplotlib.pyplot"),
    (importable env "mpl_toolkits.mplot3d"),
    (plt_figure env), (add_subplot_3d env); reflexivity.
Qed.

Lemma plot_line_resolve_no_call (mode : pyval) :
  count is_call (trace_of (plot_line_resolve env mode)) = 0%nat.
Proof.
  destruct (is_str mode "auto") eqn:Hauto.
  - apply is_str_true in Hauto. subst mode.
    rewrite plot_line_resolve_auto.
    destruct (importable env "mayavi.mlab"); [reflexivity |].
    pose proof probe_matplotlib_no_call as Hm.
    destruct (probe_matplotlib env) as [tm [e | v]]; unfold trace_of in Hm;
      cbn [fst] in Hm.
    + destruct (catches [ImportError; ValueError] e).
      * destruct (importable env "vispy");
          rewrite after_after, trace_of_after, !count_app, Hm; reflexivity.
      * rewrite trace_of_after, count_app. unfold trace_of. cbn [fst].
        rewrite Hm. reflexivity.
    + rewrite trace_of_after, count_app. unfold trace_of. cbn [fst].
      rewrite Hm. reflexivity.
  - now rewrite plot_line_resolve_fixed.
Qed.

Lemma plot_line_dispatch_no_call (mode : pyval) (points : ndarray3) (clf : bool)
    (kw : kwargs) :
  count is_call (trace_of (plot_line_dispatch env mode points clf kw)) = 0%nat.
Proof.
  unfold plot_line_dispatch.
  destruct (is_str mode "mayavi").
  { unfold plot_line_mayavi, import_, trace_of.
    destruct (importable env "mayavi.mlab"), clf; reflexivity. }
  destruct (is_str mode "vispy").
  { unfold plot_line_vispy, import_, lift, trace_of.
    destruct (importable env "vispy"), (importable env "vispy.app"),
      (importable env "vispy.scene"); try reflexivity.
    destruct (np_max (col0 points)) as [e | mx]; [reflexivity |].
    destruct (np_max (col1 points)) as [e | my]; [reflexivity |].
    destruct (np_max (col2 points)) as [e | mz]; reflexivity. }
  destruct (is_str mode "matplotlib"); [| reflexivity].
  unfold plot_line_matplotlib, import_, extcall, trace_of.
  destruct (importable env "matplotlib.pyplot"),
    (importable env "mpl_toolkits.mplot3d"),
    (plt_figure env), (gca_3d env); reflexivity.
Qed.

(** One call of [plot_line] is one entry, whatever happens inside. *)
Lemma plot_line_single_call (points : ndarray3) (mode : pyval) (clf : bool)
    (kw : kwargs) :
  plot_line_calls (trace_of (plot_line env points mode clf kw)) =
    [{| call_points := points; call_mode := mode; call_clf := clf;
        call_color := kw_get "color" kw |}].
Proof.
  unfold plot_line. rewrite bind_emit, trace_of_after, plot_line_calls_app.
  rewrite (calls_of_quiet (trace_of (bind _ _))); [reflexivity |].
  apply count_bind; [apply plot_line_resolve_no_call | intros mode'].
  apply plot_line_dispatch_no_call.
Qed.

End SingleCall.

Lemma calls_bind {A B} (P : line_call -> Prop) (m : M A) (k : A -> M B) :
  Forall P (plot_line_calls (trace_of m)) ->
  (forall a, Forall P (plot_line_calls (trace_of (k a)))) ->
  Forall P (plot_line_calls (trace_of (x <- m ;; k x))).
Proof.
  intros Hm Hk. rewrite trace_of_bind, plot_line_calls_app. apply Forall_app.
  split; [exact Hm |]. destruct (result_of m); [constructor | apply Hk].
Qed.

Lemma calls_for {A} (P : line_call -> Prop) (xs : list A) (body : A -> M unit) :
  (forall x, In x xs -> Forall P (plot_line_calls (trace_of (body x)))) ->
  Forall P (plot_line_calls (trace_of (for_ xs body))).
Proof.
  induction xs as [| x xs IH]; intros H; cbn [for_].
  - constructor.
  - apply calls_bind; [apply H; now left | intros _].
    apply IH. intros y Hy. apply H. now right.
Qed.

(** X16.  Whatever the environment, the scene and the keyword
    arguments, and however far the run gets, every call [plot_cell]
    makes to [plot_line] has [clf=False], the mode given in the keyword
    arguments (or 'auto'), and one of the scene's colours as [color]. *)
Theorem plot_cell_calls_invariant (env : Env) (randbelow : nat -> nat)
    (lines : list (list ndarray3)) (boundary : pyval) (clf : bool) (kw : kwargs) :
  Forall (fun call =>
            call_clf call = false
            /\ call_mode call = kw_default "mode" (VStr "auto") kw
            /\ exists c, In c (plot_cell_colours randbelow (length lines))
                         /\ call_color call = Some (colour_val c))
    (plot_line_calls (trace_of (plot_cell env randbelow lines boundary clf kw))).
Proof.
  unfold plot_cell. cbv zeta.
  apply calls_bind.
  { unfold import_, trace_of. destruct (importable env "mayavi.mlab"); constructor. }
  intros _. apply calls_bind; [constructor |]. intros _.
  apply calls_bind.
  - apply calls_for. intros [line c] Hlc. apply in_combine_r in Hlc.
    apply calls_for. intros s _. cbn [fst snd]. unfold plot_cell_call.
    destruct (kw_has "clf" kw || kw_has "color" kw || kw_has "points" kw)%bool;
      [constructor |].
    rewrite plot_line_single_call. constructor; [| constructor].
    cbn [call_clf call_mode call_color kw_get String.eqb Ascii.eqb Bool.eqb].
    repeat split. exists c. split; [exact Hlc | reflexivity].
  - intros _. rewrite plot_cell_boundary_silent. constructor.
Qed.

(** ** Colours of full saturation and value *)

Lemma saturated_eq (c c' : colour) : colour_eq c c' -> saturated c' -> saturated c.
Proof.
  destruct c as [[r g] b], c' as [[r' g'] b'].
  intros (Hr & Hg & Hb) (Hr' & Hg' & Hb' & Hone & Hzero).
  cbn [saturated]. rewrite Hr, Hg, Hb. tauto.
Qed.

Lemma sector_colour_saturated (i : Z) (f : Q) :
  (0 <= i <= 5)%Z -> 0 <= f -> f < 1 -> saturated (sector_colour i f).
Proof.
  intros Hi H0 H1.
  assert (C : (i = 0 \/ i = 1 \/ i = 2 \/ i = 3 \/ i = 4 \/ i = 5)%Z) by lia.
  destruct C as [-> | [-> | [-> | [-> | [-> | ->]]]]];
    cbn [sector_colour saturated];
    (split; [split; lra |]); (split; [split; lra |]); (split; [split; lra |]);
    split; first [left; lra | right; left; lra | right; right; lra].
Qed.

(** X17.  Every colour [plot_cell] assigns is an RGB triple in the unit
    cube with one component equal to 1 and one equal to 0: full value,
    full saturation. *)
Theorem plot_cell_colours_saturated (randbelow : nat -> nat) (k : nat) :
  Forall saturated (plot_cell_colours randbelow k).
Proof.
  unfold plot_cell_colours.
  apply (Permutation_Forall (Permutation_sym (shuffle_Permutation randbelow _))).
  rewrite plot_cell_hues_eq, map_map. apply Forall_forall.
  intros c Hc. apply in_map_iff in Hc as (i & <- & Hi). apply in_seq in Hi.
  destruct (@hue_at_range k i) as (H0 & H1); [lia |].
  destruct (sector_range H0 H1) as (Hsec & Hf0 & Hf1).
  apply (@saturated_eq _ _ (hsv_to_rgb_sector H0 H1)).
  now apply sector_colour_saturated.
Qed.

(** ** Normalising a boundary twice *)

(** X18.  For a boundary given as a sequence, normalisation is
    idempotent: what [plot_cell] makes of it is left unchanged by a
    second normalisation. *)
Theorem plot_cell_boundary_idempotent (b b' : pyval) :
  isinstance_float_int b = false ->
  plot_cell_boundary b = inr b' ->
  plot_cell_boundary b' = inr b'.
Proof.
  intros Hseq Hb. unfold plot_cell_boundary in Hb. rewrite Hseq in Hb.
  destruct (py_len b) as [e | n] eqn:Hlen; [discriminate |].
  destruct (Nat.eqb_spec n 3) as [-> | Hn].
  - injection Hb as <-. reflexivity.
  - injection Hb as <-. unfold plot_cell_boundary. rewrite Hseq, Hlen.
    destruct (Nat.eqb_spec n 3); [contradiction | reflexivity].
Qed.

Lemma plot_cell_boundary_idempotent_witness :
  plot_cell_boundary (VTuple [VNum 0; VNum 1; VNum 0; VNum 2; VNum 0; VNum 3])
    = inr (VTuple [VNum 0; VNum 1; VNum 0; VNum 2; VNum 0; VNum 3]).
Proof.
  apply (@plot_cell_boundary_idempotent (VTuple [VNum 1; VNum 2; VNum 3])); reflexivity.
Defined.

(** ** plot_cell without mayavi *)

(** X19.  [plot_cell] imports mayavi before it looks at anything else:
    where mayavi does not import the call ends in that ImportError with
    nothing cleared, called or drawn, even when the keyword arguments
    name another toolkit as [mode] and that toolkit is installed. *)
Theorem plot_cell_requires_mayavi (env : Env) (randbelow : nat -> nat)
    (lines : list (list ndarray3)) (boundary : pyval) (clf : bool) (kw : kwargs) :
  importable env "mayavi.mlab" = false ->
  plot_cell env randbelow lines boundary clf kw =
    ([EvImport "mayavi.mlab"],
     inl (mk_exn ImportError "No module named mayavi.mlab"))
  /\ plot_line_calls (trace_of (plot_cell env randbelow lines boundary clf kw)) = []
  /\ touches Vispy (trace_of (plot_cell env randbelow lines boundary clf kw)) = false
  /\ touches Matplotlib (trace_of (plot_cell env randbelow lines boundary clf kw)) = false.
Proof.
  intros Hmay.
  assert (Hrun : plot_cell env randbelow lines boundary clf kw =
            ([EvImport "mayavi.mlab"],
             inl (mk_exn ImportError "No module named mayavi.mlab"))).
  { unfold plot_cell, import_. rewrite Hmay. reflexivity. }
  rewrite Hrun. repeat split.
Qed.

Lemma plot_cell_requires_mayavi_witness :
  plot_cell env_no_mayavi rand_top three_by_two VNone true [("mode"%string, VStr "vispy")] =
    ([EvImport "mayavi.mlab"],
     inl (mk_exn ImportError "No module named mayavi.mlab")).
Proof.
  apply (@plot_cell_requires_mayavi env_no_mayavi rand_top three_by_two VNone true
           [("mode"%string, VStr "vispy")]).
  reflexivity.
Defined.
